(** * Streamlit_App.py: the flood-monitoring page, embedded and verified

    The page is a straight script: it computes the start of a 24-hour
    window, fetches the station registry through the memoised [make_df],
    drops one station, derives the map data and the selector options,
    turns the selected label into a station identifier, fetches that
    station's readings through [make_df] again and parses their
    [dateTime] column.

    Python values are embedded as follows.
    - [str] is [string]; the comparison of two strings is the
      lexicographic comparison of their character codes. The case of
      letters ([lower], [title]) is modelled for strings of ASCII
      characters ([is_ascii]); the properties that speak of the case
      say so.
    - What [r.json()] returns is a [json] value; a Python [dict] is an
      association list in insertion order (the keys of a parsed JSON
      object are pairwise distinct; [dict_get] reads the first binding).
    - A [pd.DataFrame] is its ordered column names and its rows, each row
      holding one cell per column; a cell is [None] where pandas stores
      NaN for a key the record did not have.
    - An exception is a value of [exn]; code that can raise returns a
      [result].
    - The cache of [st.cache_data] is a [gmap] from the url to the frame,
      threaded through the calls together with the log of the requests
      sent. *)

From Stdlib Require Import ZArith QArith List Ascii String Bool Lia Sorted.
From stdpp Require Import base option list gmap strings.

Local Open Scope string_scope.
Local Open Scope list_scope.

(** ** Exceptions and results *)

Inductive exn : Type :=
| ConnectionError
| JSONDecodeError
| KeyError (key : string)
| TypeError
| ValueError
| AttributeError
| IndexError
| OverflowError.

Inductive result (A : Type) : Type :=
| Ok (a : A)
| Raise (e : exn).

Arguments Ok {A} a.
Arguments Raise {A} e.

Definition rbind {A B : Type} (r : result A) (k : A -> result B) : result B :=
  match r with
  | Ok a => k a
  | Raise e => Raise e
  end.

#[global] Instance result_ret : MRet result := @Ok.
#[global] Instance result_bind : MBind result := fun A B k r => rbind r k.

Definition is_ok {A : Type} (r : result A) : bool :=
  match r with Ok _ => true | Raise _ => false end.

(** ** JSON values, as returned by [r.json()] *)

#[local] Set Warnings "-register-all".

Inductive json : Type :=
| JNull
| JBool (b : bool)
| JNum (q : Q)
| JStr (s : string)
| JArr (l : list json)
| JObj (d : list (string * json)).

(** A Python [dict] with [str] keys. *)
Definition pydict : Type := list (string * json).

Fixpoint dict_get (k : string) (d : pydict) : option json :=
  match d with
  | [] => None
  | (k', v) :: d' => if String.eqb k' k then Some v else dict_get k d'
  end.

Definition keys (d : pydict) : list string := map fst d.

(** [obj[k]]: a [dict] without the key raises [KeyError]; a list, a
    string, a number, a boolean and [None] cannot be subscripted by a
    string and raise [TypeError]. *)
Definition subscript (obj : json) (k : string) : result json :=
  match obj with
  | JObj d =>
      match dict_get k d with
      | Some v => Ok v
      | None => Raise (KeyError k)
      end
  | _ => Raise TypeError
  end.

(** ** Data frames *)

(** A cell: [None] is the NaN pandas fills in for a missing key. *)
Definition cell : Type := option json.

Record DataFrame : Type := mkDataFrame {
  columns : list string;
  rows : list (list cell)
}.

(** The frame of [pd.DataFrame([])]. *)
Definition empty_frame : DataFrame := mkDataFrame [] [].

(** [pd.isna]: NaN, and the [None] a JSON [null] is parsed to. *)
Definition isna (c : cell) : bool :=
  match c with
  | None | Some JNull => true
  | Some _ => false
  end.

Definition mem_str (k : string) (l : list string) : bool :=
  existsb (String.eqb k) l.

(** Appends the names of [ks] that [acc] does not hold yet, in order. *)
Fixpoint add_new (acc ks : list string) : list string :=
  match ks with
  | [] => acc
  | k :: ks' => add_new (if mem_str k acc then acc else acc ++ [k]) ks'
  end.

(** The columns of a frame built from records: every key, in the order
    of its first appearance. *)
Definition union_keys (records : list pydict) : list string :=
  fold_left (fun acc d => add_new acc (keys d)) records [].

Definition row_of (cols : list string) (d : pydict) : list cell :=
  map (fun k => dict_get k d) cols.

(** [pd.DataFrame(records)] for a list of dicts. *)
Definition from_records (records : list pydict) : DataFrame :=
  let cols := union_keys records in
  mkDataFrame cols (map (row_of cols) records).

Definition as_dict (j : json) : option pydict :=
  match j with JObj d => Some d | _ => None end.

Fixpoint all_dicts (l : list json) : option (list pydict) :=
  match l with
  | [] => Some []
  | j :: l' =>
      match as_dict j, all_dicts l' with
      | Some d, Some ds => Some (d :: ds)
      | _, _ => None
      end
  end.

(** The payload as a list of dicts, when it is one (the empty list
    included). *)
Definition as_records (data : json) : option (list pydict) :=
  match data with
  | JArr l => all_dicts l
  | _ => None
  end.

(** Position of the first column named [k]. *)
Fixpoint index_of (k : string) (cols : list string) : option nat :=
  match cols with
  | [] => None
  | c :: cols' =>
      if String.eqb c k then Some 0%nat
      else option_map S (index_of k cols')
  end.

(** [df[k]]: the column as a list of cells, [KeyError] when there is no
    such column. *)
Definition getitem (df : DataFrame) (k : string) : result (list cell) :=
  match index_of k (columns df) with
  | Some i => Ok (map (fun r => nth i r None) (rows df))
  | None => Raise (KeyError k)
  end.

(** [df[mask]]: the rows whose mask entry is [True]. *)
Fixpoint select_rows {A : Type} (rs : list A) (mask : list bool) : list A :=
  match rs, mask with
  | r :: rs', b :: mask' =>
      if b then r :: select_rows rs' mask' else select_rows rs' mask'
  | _, _ => []
  end.

Definition boolean_index (df : DataFrame) (mask : list bool) : DataFrame :=
  mkDataFrame (columns df) (select_rows (rows df) mask).

(** The cell at row position [i] under column [k]. *)
Definition cell_at (df : DataFrame) (i : nat) (k : string) : option cell :=
  match nth_error (rows df) i, index_of k (columns df) with
  | Some r, Some j => Some (nth j r None)
  | _, _ => None
  end.

(** What the row [r] of [df] holds under column [k] (NaN when there is
    no such column). *)
Definition field (df : DataFrame) (k : string) (r : list cell) : cell :=
  match index_of k (columns df) with
  | Some j => nth j r None
  | None => None
  end.

(** [df[ks]] for a list of column names: the named columns in the order
    asked for, [KeyError] at the first name that is not a column. *)
Fixpoint positions (ks cols : list string) : result (list nat) :=
  match ks with
  | [] => Ok []
  | k :: ks' =>
      match index_of k cols with
      | Some i => idx ← positions ks' cols; mret (i :: idx)
      | None => Raise (KeyError k)
      end
  end.

Definition getitem_list (df : DataFrame) (ks : list string) : result DataFrame :=
  idx ← positions ks (columns df);
  mret (mkDataFrame ks (map (fun r => map (fun i => nth i r None) idx) (rows df))).

(** [df.rename(columns=m)]. *)
Definition rename (m : list (string * string)) (df : DataFrame) : DataFrame :=
  let new_name c :=
    match find (fun p => String.eqb (fst p) c) m with
    | Some p => snd p
    | None => c
    end in
  mkDataFrame (map new_name (columns df)) (rows df).

(** [df.dropna()]: the rows without a missing cell. *)
Definition dropna (df : DataFrame) : DataFrame :=
  mkDataFrame (columns df)
    (List.filter (fun r => negb (existsb isna r)) (rows df)).

(** [col.iloc[0]]. *)
Definition iloc0 (col : list cell) : result cell :=
  match col with
  | c :: _ => Ok c
  | [] => Raise IndexError
  end.

(** ** Strings *)

(** [s.replace(old, new)] for a pattern [old] of one character, which is
    what both call sites pass. *)
Fixpoint replace (old : ascii) (new : string) (s : string) : string :=
  match s with
  | EmptyString => EmptyString
  | String c s' =>
      if Ascii.eqb c old then new ++ replace old new s'
      else String c (replace old new s')
  end.

(** [s[:-n]]: all but the last [n] characters, the empty string when [s]
    has no more than [n]. *)
Definition drop_last (n : nat) (s : string) : string :=
  substring 0 (String.length s - n) s.

Definition is_upper (c : ascii) : bool :=
  let n := nat_of_ascii c in (65 <=? n)%nat && (n <=? 90)%nat.

Definition is_lower (c : ascii) : bool :=
  let n := nat_of_ascii c in (97 <=? n)%nat && (n <=? 122)%nat.

Definition to_lower (c : ascii) : ascii :=
  if is_upper c then ascii_of_nat (nat_of_ascii c + 32) else c.

Definition to_upper (c : ascii) : ascii :=
  if is_lower c then ascii_of_nat (nat_of_ascii c - 32) else c.

(** Whether every character is an ASCII character. *)
Definition is_ascii (s : string) : bool :=
  forallb (fun c => (nat_of_ascii c <? 128)%nat) (list_ascii_of_string s).

(** [s.lower()] for a string of ASCII characters ([is_ascii]): the
    letters A to Z are put in lower case, the other characters kept.
    Outside ASCII, where Python also lowers accented letters, it is
    not [str.lower]. *)
Fixpoint lower (s : string) : string :=
  match s with
  | EmptyString => EmptyString
  | String c s' => String (to_lower c) (lower s')
  end.

(** [s.title()] for a string of ASCII characters ([is_ascii]): a
    letter that follows a character without case is put in upper case,
    a letter that follows a letter in lower case. Outside ASCII, where
    Python also cases accented letters and may change the length, it
    is not [str.title]. *)
Fixpoint title_from (previous_is_cased : bool) (s : string) : string :=
  match s with
  | EmptyString => EmptyString
  | String c s' =>
      if is_upper c || is_lower c then
        String (if previous_is_cased then to_lower c else to_upper c)
               (title_from true s')
      else String c (title_from false s')
  end.

Definition title (s : string) : string := title_from false s.

(** ** Sorting and duplicates of a column of strings *)

Fixpoint insert_sorted (x : string) (l : list string) : list string :=
  match l with
  | [] => [x]
  | y :: l' => if String.leb x y then x :: l else y :: insert_sorted x l'
  end.

(** [col.sort_values()] on strings: ascending in the order of [str]. *)
Definition sort_values (l : list string) : list string :=
  fold_right insert_sorted [] l.

(** [col.unique()]: the values in the order of their first appearance. *)
Fixpoint unique_from (seen l : list string) : list string :=
  match l with
  | [] => []
  | x :: l' =>
      if mem_str x seen then unique_from seen l'
      else x :: unique_from (x :: seen) l'
  end.

Definition unique (l : list string) : list string := unique_from [] l.

(** ** [datetime]: naive date-times, their difference with a
    [timedelta], and [str] *)

Module PyDatetime.

Local Open Scope Z_scope.

(** The fields obey the ranges of the [datetime] class: year 1..9999,
    month 1..12, day 1..days of the month, hour 0..23, minute and
    second 0..59, microsecond 0..999999. *)
Record datetime : Type := mkDatetime {
  year : Z; month : Z; day : Z;
  hour : Z; minute : Z; second : Z; microsecond : Z
}.

(** Normalised as the class keeps it: 0 <= seconds < 86400 and
    0 <= microseconds < 1000000. *)
Record timedelta : Type := mkTimedelta {
  days : Z; seconds : Z; microseconds : Z
}.

Definition timedelta_hours (h : Z) : timedelta :=
  mkTimedelta (h * 3600 / 86400) (h * 3600 mod 86400) 0.

Definition is_leap (y : Z) : bool :=
  (y mod 4 =? 0) && (negb (y mod 100 =? 0) || (y mod 400 =? 0)).

Definition days_before_year (y : Z) : Z :=
  let p := y - 1 in p * 365 + p / 4 - p / 100 + p / 400.

Definition DAYS_IN_MONTH : list Z :=
  [-1; 31; 28; 31; 30; 31; 30; 31; 31; 30; 31; 30; 31].

Definition DAYS_BEFORE_MONTH : list Z :=
  [-1; 0; 31; 59; 90; 120; 151; 181; 212; 243; 273; 304; 334].

Definition table (t : list Z) (m : Z) : Z := nth (Z.to_nat m) t (-1).

Definition days_in_month (y m : Z) : Z :=
  if (m =? 2) && is_leap y then 29 else table DAYS_IN_MONTH m.

Definition days_before_month (y m : Z) : Z :=
  table DAYS_BEFORE_MONTH m + (if (2 <? m) && is_leap y then 1 else 0).

Definition ymd2ord (y m d : Z) : Z :=
  days_before_year y + days_before_month y m + d.

Definition DI400Y : Z := days_before_year 401.
Definition DI100Y : Z := days_before_year 101.
Definition DI4Y : Z := days_before_year 5.
Definition MAXORDINAL : Z := 3652059.

(** The date of an ordinal, 1 being 0001-01-01. *)
Definition ord2ymd (ordinal : Z) : Z * Z * Z :=
  let n := ordinal - 1 in
  let n400 := n / DI400Y in
  let n := n mod DI400Y in
  let n100 := n / DI100Y in
  let n := n mod DI100Y in
  let n4 := n / DI4Y in
  let n := n mod DI4Y in
  let n1 := n / 365 in
  let n := n mod 365 in
  let y := n400 * 400 + 1 + n100 * 100 + n4 * 4 + n1 in
  if (n1 =? 4) || (n100 =? 4) then (y - 1, 12, 31)
  else
    let leapyear := (n1 =? 3) && (negb (n4 =? 24) || (n100 =? 3)) in
    let m := Z.shiftr (n + 50) 5 in
    let preceding :=
      table DAYS_BEFORE_MONTH m + (if (2 <? m) && leapyear then 1 else 0) in
    if n <? preceding then
      let m' := m - 1 in
      let preceding' :=
        preceding
        - (table DAYS_IN_MONTH m' + (if (m' =? 2) && leapyear then 1 else 0)) in
      (y, m', n - preceding' + 1)
    else (y, m, n - preceding + 1).

Definition toordinal (dt : datetime) : Z :=
  ymd2ord (year dt) (month dt) (day dt).

(** [dt - td]: the days, seconds and microseconds are subtracted with
    carries; a date outside 0001-01-01..9999-12-31 is an
    [OverflowError]. *)
Definition sub (dt : datetime) (td : timedelta) : result datetime :=
  let us := microsecond dt - microseconds td in
  let s := hour dt * 3600 + minute dt * 60 + second dt - seconds td
           + us / 1000000 in
  let d := toordinal dt - days td + s / 86400 in
  let s := s mod 86400 in
  if (0 <? d) && (d <=? MAXORDINAL) then
    let '(y, m, dd) := ord2ymd d in
    Ok (mkDatetime y m dd (s / 3600) (s mod 3600 / 60) (s mod 60)
          (us mod 1000000))
  else Raise OverflowError.

Definition digit (n : Z) : ascii := ascii_of_nat (48 + Z.to_nat (n mod 10)).

(** [w] decimal digits of [n], zero-filled: ["%0wd" % n] for
    0 <= n < 10^w, which the ranges of the fields ensure. *)
Fixpoint zfill (w : nat) (n : Z) : string :=
  match w with
  | O => EmptyString
  | S w' => zfill w' (n / 10) ++ String (digit n) EmptyString
  end.

(** [str(dt)], that is [dt.isoformat(sep=' ')]: the fraction of a
    second is printed only when the microsecond is not zero. *)
Definition str (dt : datetime) : string :=
  zfill 4 (year dt) ++ "-" ++ zfill 2 (month dt) ++ "-" ++ zfill 2 (day dt)
  ++ " " ++ zfill 2 (hour dt) ++ ":" ++ zfill 2 (minute dt) ++ ":"
  ++ zfill 2 (second dt)
  ++ (if microsecond dt =? 0 then "" else "." ++ zfill 6 (microsecond dt)).

Definition valid (dt : datetime) : Prop :=
  1 <= year dt <= 9999 /\ 1 <= month dt <= 12
  /\ 1 <= day dt <= days_in_month (year dt) (month dt)
  /\ 0 <= hour dt <= 23 /\ 0 <= minute dt <= 59 /\ 0 <= second dt <= 59
  /\ 0 <= microsecond dt <= 999999.

End PyDatetime.

Import PyDatetime.

(** ** The script: lines 14 and 15 *)

Definition last_24h_datetime (now : datetime) : result datetime :=
  PyDatetime.sub now (timedelta_hours 24).

Definition url_formatted_dt (last_24h : datetime) : string :=
  drop_last 4 (replace " " "T" (PyDatetime.str last_24h)) ++ "Z".

(** The ISO-8601 rendering of a date-time with [T] between the date and
    the time, [frac] digits of the fraction of a second (none, and no
    point, when [frac] is 0) and the suffix [Z]: what the formatted
    start of the window is compared with. *)
Definition iso8601_Z (frac : nat) (dt : datetime) : string :=
  zfill 4 (year dt) ++ "-" ++ zfill 2 (month dt) ++ "-" ++ zfill 2 (day dt)
  ++ "T" ++ zfill 2 (hour dt) ++ ":" ++ zfill 2 (minute dt) ++ ":"
  ++ zfill 2 (second dt)
  ++ match frac with
     | O => ""
     | S _ => "." ++ zfill frac (microsecond dt / 10 ^ (6 - Z.of_nat frac))
     end
  ++ "Z".

(** ** The network and the session *)

(** A [requests.Response]: the status, and what [r.json()] returns
    ([None] when the body is not JSON and [r.json()] raises). *)
Record Response : Type := mkResponse {
  status_code : Z;
  json_body : option json
}.

Definition response_json (r : Response) : result json :=
  match json_body r with
  | Some j => Ok j
  | None => Raise JSONDecodeError
  end.

(** [requests.get]: the response, or the exception of a transport
    failure. It is an argument of every call, since the service may
    answer differently from one call to the next. *)
Definition network : Type := string -> result Response.

(** What outlives one run of the script: the entries of
    [st.cache_data], and the urls requested so far, oldest first. *)
Record session : Type := mkSession {
  cache : gmap string DataFrame;
  sent : list string
}.

Definition new_session : session := mkSession ∅ [].

Definition root : string := "http://environment.data.gov.uk/flood-monitoring/".
Definition stations_api : string := root ++ "id/stations".

(** [cell != s] and [cell == sel], element-wise as pandas compares a
    column of objects with a scalar: only a string equals a string, and
    nothing equals [None]. *)
Definition cell_ne (s : string) (c : cell) : bool :=
  match c with
  | Some (JStr s') => negb (String.eqb s' s)
  | _ => true
  end.

Definition cell_eq (sel : option string) (c : cell) : bool :=
  match sel, c with
  | Some s, Some (JStr s') => String.eqb s' s
  | _, _ => false
  end.

Definition as_str (c : cell) : option string :=
  match c with
  | Some (JStr s) => Some s
  | _ => None
  end.

Fixpoint all_str (col : list cell) : option (list string) :=
  match col with
  | [] => Some []
  | c :: col' =>
      match as_str c, all_str col' with
      | Some s, Some ss => Some (s :: ss)
      | _, _ => None
      end
  end.

(** Line 50: the registry without the station labelled [" Huscote FAS"]. *)
Definition stations_df (fetched : DataFrame) : result DataFrame :=
  label ← getitem fetched "label";
  mret (boolean_index fetched (map (cell_ne " Huscote FAS") label)).

(** Lines 55 to 57. *)
Definition map_data (stations : DataFrame) : result DataFrame :=
  coords ← getitem_list stations ["lat"; "long"];
  mret (dropna (rename [("long", "lon")] coords)).

(** Line 67, the options of the selector. A label that is not a [str]
    stops the script at the selector: [sort_values] raises [TypeError]
    on a [str] next to another type, and the selector applies
    [format_func] to every option, which raises [AttributeError] on
    anything without [lower] (NaN included). Which of the two is raised
    is not told apart: both are reported as [TypeError]. *)
Definition selectbox_options (stations : DataFrame) : result (list string) :=
  label ← getitem stations "label";
  match all_str label with
  | Some labels => Ok (unique (sort_values labels))
  | None => Raise TypeError
  end.

(** Line 68. *)
Definition format_func (a : string) : string := title (lower a).

(** [st.selectbox]: the option at the position the user picked, [None]
    when there is no option. The position is below the number of
    options, the widget offers no other. *)
Definition selectbox (options : list string) (picked : nat) : option string :=
  nth_error options picked.

(** What the selector shows. *)
Definition selectbox_shown (options : list string) : list string :=
  map format_func options.

(** Lines 72 to 76. *)
Definition station_id (stations : DataFrame) (station_select : option string)
  : result string :=
  label ← getitem stations "label";
  notation ← getitem (boolean_index stations (map (cell_eq station_select) label))
                     "notation";
  first ← iloc0 notation;
  match first with
  | Some (JStr s) => Ok (replace "_" "" s)
  | _ => Raise AttributeError
  end.

(** Lines 78 to 80. *)
Definition filtered_by_station (id dt : string) : string :=
  root ++ "id/stations/" ++ id ++ "/readings" ++ "?since=" ++ dt.

Section Page.

(** What pandas makes of a payload that is not a list of dicts (a
    scalar, a dict, a list holding something else): left open, the
    script is written for the list of records of the service. *)
Variable DataFrame_other : json -> result DataFrame.

(** [pd.to_datetime] on a column, and the values it yields. *)
Variable Timestamp : Type.
Variable to_datetime : list cell -> result (list Timestamp).

(** [pd.DataFrame(data)]. *)
Definition pd_DataFrame (data : json) : result DataFrame :=
  match as_records data with
  | Some records => Ok (from_records records)
  | None => DataFrame_other data
  end.

(** Lines 42 to 45, the function under the decorator. *)
Definition make_df_body (requests_get : network) (url : string)
  : result DataFrame :=
  r ← requests_get url;
  json ← response_json r;
  items ← subscript json "items";
  pd_DataFrame items.

(** Lines 29 and 30, [make_df] under [st.cache_data]: a cached url is
    answered from the cache; otherwise the body runs, which sends one
    request, and its frame is cached. An exception leaves the cache as
    it was. *)
Definition make_df (requests_get : network) (url : string) (s : session)
  : session * result DataFrame :=
  match cache s !! url with
  | Some df => (s, Ok df)
  | None =>
      match make_df_body requests_get url with
      | Ok df => (mkSession (<[url := df]> (cache s)) (sent s ++ [url]), Ok df)
      | Raise e => (mkSession (cache s) (sent s ++ [url]), Raise e)
      end
  end.

(** What the script has derived from the registry when it asks for
    the readings. *)
Record selection : Type := mkSelection {
  sel_stations : DataFrame;
  sel_map_data : DataFrame;
  sel_options : list string;
  sel_shown : list string;
  sel_station_select : option string;
  sel_station_id : string;
  sel_url : string
}.

(** Lines 50 to 80, from the fetched registry, the position picked in
    the selector and the formatted start of the window. *)
Definition select_station (fetched : DataFrame) (picked : nat) (dt : string)
  : result selection :=
  stations ← stations_df fetched;
  coords ← map_data stations;
  options ← selectbox_options stations;
  let station_select := selectbox options picked in
  id ← station_id stations station_select;
  mret (mkSelection stations coords options (selectbox_shown options)
          station_select id (filtered_by_station id dt)).

(** The readings as the chart and the table use them. *)
Record readings : Type := mkReadings {
  rd_frame : DataFrame;
  rd_dateTime : list Timestamp;
  rd_value : list cell
}.

(** Lines 85 to 91. *)
Definition parse_readings (filtered_df : DataFrame) : result readings :=
  dateTime ← getitem filtered_df "dateTime";
  parsed ← to_datetime dateTime;
  value ← getitem filtered_df "value";
  mret (mkReadings filtered_df parsed value).

(** One run of the script, up to the data of the chart. *)
Definition page (requests_get : network) (now : datetime) (picked : nat)
    (s : session) : session * result (selection * readings) :=
  match last_24h_datetime now with
  | Raise e => (s, Raise e)
  | Ok last_24h =>
      let '(s1, fetched) := make_df requests_get stations_api s in
      let dt := url_formatted_dt last_24h in
      match fetched ≫= (fun df => select_station df picked dt) with
      | Raise e => (s1, Raise e)
      | Ok chosen =>
          let '(s2, filtered_df) := make_df requests_get (sel_url chosen) s1 in
          (s2, rd ← filtered_df ≫= parse_readings; mret (chosen, rd))
      end
  end.

End Page.

(** ** Notions the properties are stated with *)

(** A status outside 200..299. *)
Definition non_2xx (r : Response) : bool :=
  (status_code r <? 200)%Z || (299 <? status_code r)%Z.


(** The coordinates of a station, and whether it has both. *)
Definition coordinates (stations : DataFrame) (r : list cell) : list cell :=
  [field stations "lat" r; field stations "long" r].

Definition has_coordinates (stations : DataFrame) (r : list cell) : bool :=
  negb (isna (field stations "lat" r)) && negb (isna (field stations "long" r)).


(** Every url in the cache was requested in this session. *)
Definition requested_before (s : session) : Prop :=
  forall url, is_Some (cache s !! url) -> In url (sent s).

(** Every row has one cell per column. *)
Definition rectangular (df : DataFrame) : Prop :=
  Forall (fun r => length r = length (columns df)) (rows df).

Local Open Scope Z_scope.

(** The last step of [ord2ymd]: the month and the day of the month of
    the day [n] of a year, counted from 0, and the check that they are
    right for one day. *)
Definition month_and_day (leapyear : bool) (n : Z) : Z * Z :=
  let m := Z.shiftr (n + 50) 5 in
  let preceding :=
    table DAYS_BEFORE_MONTH m + (if (2 <? m) && leapyear then 1 else 0) in
  if n <? preceding then
    let m' := m - 1 in
    let preceding' :=
      preceding
      - (table DAYS_IN_MONTH m' + (if (m' =? 2) && leapyear then 1 else 0)) in
    (m', n - preceding' + 1)
  else (m, n - preceding + 1).

Definition month_and_day_ok (leapyear : bool) (k : nat) : bool :=
  let n := Z.of_nat k in
  let '(m, d) := month_and_day leapyear n in
  (1 <=? m) && (m <=? 12) && (1 <=? d)
  && (d <=? table DAYS_IN_MONTH m + (if (m =? 2) && leapyear then 1 else 0))
  && (table DAYS_BEFORE_MONTH m + (if (2 <? m) && leapyear then 1 else 0) + d
      =? n + 1).

Local Close Scope Z_scope.

(** ** A small registry and a small service, for the examples *)

Definition no_other_payload (data : json) : result DataFrame := Raise ValueError.

Definition keep_dateTime (col : list cell) : result (list cell) := Ok col.

Definition station_A : pydict :=
  [("label", JStr "A"); ("notation", JStr "S_1");
   ("lat", JNum 1); ("long", JNum 2)].

Definition station_huscote : pydict :=
  [("label", JStr " Huscote FAS"); ("notation", JStr "2077")].

Definition station_mill : pydict :=
  [("notation", JStr "E_21_b"); ("label", JStr "mill lane"); ("lat", JNull)].


Definition registry : list pydict := [station_A; station_huscote; station_mill].

Definition registry_body : json := JObj [("items", JArr (map JObj registry))].

Definition readings_body : json :=
  JObj [("items",
         JArr [JObj [("dateTime", JStr "2024-01-01T00:00:00Z");
                     ("value", JNum (123 # 100))]])].

Definition service (readings : json) : network :=
  fun url =>
    if String.eqb url stations_api then Ok (mkResponse 200 (Some registry_body))
    else Ok (mkResponse 200 (Some readings)).

Definition service_down : network := fun _ => Raise ConnectionError.

Definition service_not_json : network := fun _ => Ok (mkResponse 200 None).

Definition service_no_items : network :=
  fun _ => Ok (mkResponse 200 (Some (JObj [("error", JStr "no such station")]))).

Definition service_unavailable : network :=
  fun _ => Ok (mkResponse 503 (Some (JObj [("items", JArr [])]))).

Definition since_1 : string :=
  filtered_by_station "S1" "2024-01-01T12:34:56.12Z".
Definition since_2 : string :=
  filtered_by_station "S1" "2024-01-01T12:34:57.12Z".

Definition stations_without_long : DataFrame :=
  mkDataFrame ["notation"; "label"; "lat"]
    [[Some (JStr "E_21_b"); Some (JStr "mill lane"); Some JNull]].


Definition stations_example : DataFrame :=
  mkDataFrame ["label"; "notation"; "lat"; "long"]
    [[Some (JStr "A"); Some (JStr "S_1"); Some (JNum 1); Some (JNum 2)];
     [Some (JStr "mill lane"); Some (JStr "E_21_b"); Some JNull; None]].

Definition no_readings_body : json := JObj [("items", JArr [])].

(** * Properties *)

(** ** Lists of names and records *)

Lemma mem_str_In k l : mem_str k l = true <-> In k l.
Proof.
  unfold mem_str. rewrite existsb_exists. split.
  - intros [x [Hx Heq]]. apply String.eqb_eq in Heq. now subst.
  - intros Hk. exists k. split; [assumption | apply String.eqb_refl].
Qed.

Lemma add_new_In acc ks k :
  In k (add_new acc ks) <-> In k acc \/ In k ks.
Proof.
  revert acc. induction ks as [| k' ks IH]; intros acc; simpl.
  - tauto.
  - rewrite IH. destruct (mem_str k' acc) eqn:Hm.
    + apply mem_str_In in Hm. split; [tauto |].
      intros [H | [H | H]]; subst; tauto.
    + rewrite in_app_iff. simpl. tauto.
Qed.

Lemma add_new_NoDup acc ks : List.NoDup acc -> List.NoDup (add_new acc ks).
Proof.
  revert acc. induction ks as [| k ks IH]; intros acc Hacc; simpl.
  - assumption.
  - apply IH. destruct (mem_str k acc) eqn:Hm; [assumption |].
    apply List.NoDup_app; [assumption | |].
    + constructor; [simpl; tauto | constructor].
    + intros x Hx [<- | []]. apply mem_str_In in Hx. congruence.
Qed.

Lemma fold_add_new_In records acc k :
  In k (fold_left (fun a d => add_new a (keys d)) records acc)
  <-> In k acc \/ exists d, In d records /\ In k (keys d).
Proof.
  revert acc. induction records as [| d records IH]; intros acc; simpl.
  - split; [tauto | intros [H | [d [[] _]]]; assumption].
  - rewrite IH, add_new_In. split.
    + intros [[H | H] | [d' [H1 H2]]]; eauto.
    + intros [H | [d' [[<- | H1] H2]]]; eauto.
Qed.

Lemma fold_add_new_NoDup records acc :
  List.NoDup acc -> List.NoDup (fold_left (fun a d => add_new a (keys d)) records acc).
Proof.
  revert acc. induction records as [| d records IH]; intros acc Hacc; simpl.
  - assumption.
  - apply IH, add_new_NoDup, Hacc.
Qed.

Lemma union_keys_In records k :
  In k (union_keys records) <-> exists d, In d records /\ In k (keys d).
Proof.
  unfold union_keys. rewrite fold_add_new_In. simpl. tauto.
Qed.

Lemma union_keys_NoDup records : List.NoDup (union_keys records).
Proof. apply fold_add_new_NoDup. constructor. Qed.

Lemma index_of_In k cols : In k cols -> exists j, index_of k cols = Some j.
Proof.
  induction cols as [| c cols IH]; simpl; [tauto |].
  intros H. destruct (String.eqb c k) eqn:Heq; [eauto |].
  destruct H as [-> | H]; [rewrite String.eqb_refl in Heq; discriminate |].
  destruct (IH H) as [j ->]. simpl. eauto.
Qed.

Lemma index_of_None k cols : index_of k cols = None -> ~ In k cols.
Proof.
  intros Hi Hin. destruct (index_of_In _ _ Hin) as [j Hj]. congruence.
Qed.

Lemma index_of_nth k cols j :
  index_of k cols = Some j -> nth_error cols j = Some k.
Proof.
  revert j. induction cols as [| c cols IH]; intros j; simpl; [discriminate |].
  destruct (String.eqb c k) eqn:Heq.
  - intros [= <-]. apply String.eqb_eq in Heq. now subst.
  - destruct (index_of k cols) as [i |]; simpl; [| discriminate].
    intros [= <-]. simpl. now apply IH.
Qed.

Lemma nth_map_default {A B : Type} (f : A -> B) (l : list A) j a b :
  nth_error l j = Some a -> nth j (map f l) b = f a.
Proof.
  revert j. induction l as [| x l IH]; intros [| j]; simpl; try discriminate.
  - now intros [= ->].
  - apply IH.
Qed.

Lemma all_dicts_map records : all_dicts (map JObj records) = Some records.
Proof.
  induction records as [| d records IH]; simpl; [reflexivity |].
  now rewrite IH.
Qed.

Lemma from_records_cell records i d k :
  nth_error records i = Some d ->
  In k (columns (from_records records)) ->
  cell_at (from_records records) i k = Some (dict_get k d).
Proof.
  intros Hi Hk. unfold cell_at. simpl in *.
  rewrite nth_error_map, Hi. simpl.
  destruct (index_of_In _ _ Hk) as [j Hj]. rewrite Hj.
  f_equal. unfold row_of.
  now apply nth_map_default with (a := k), index_of_nth.
Qed.

(** ** The memoised fetch *)

Lemma make_df_hit DataFrame_other requests_get url s df :
  cache s !! url = Some df -> make_df DataFrame_other requests_get url s = (s, Ok df).
Proof. intros H. unfold make_df. now rewrite H. Qed.

Lemma make_df_miss DataFrame_other requests_get url s :
  cache s !! url = None ->
  make_df DataFrame_other requests_get url s
  = match make_df_body DataFrame_other requests_get url with
    | Ok df => (mkSession (<[url := df]> (cache s)) (sent s ++ [url]), Ok df)
    | Raise e => (mkSession (cache s) (sent s ++ [url]), Raise e)
    end.
Proof. intros H. unfold make_df. now rewrite H. Qed.

(** A call for another url leaves the entry of [url] as it was. *)
Lemma make_df_cache_other DataFrame_other requests_get u v s :
  u <> v -> cache (fst (make_df DataFrame_other requests_get u s)) !! v = cache s !! v.
Proof.
  intros Hne. unfold make_df.
  destruct (cache s !! u); [reflexivity |].
  destruct (make_df_body DataFrame_other requests_get u); simpl; [| reflexivity].
  now apply lookup_insert_ne.
Qed.

(** An exception is not cached: the next call sends a request again. *)
Lemma make_df_exception_not_cached DataFrame_other requests_get url s e :
  cache s !! url = None ->
  snd (make_df DataFrame_other requests_get url s) = Raise e ->
  cache (fst (make_df DataFrame_other requests_get url s)) = cache s.
Proof.
  intros Hmiss. rewrite (make_df_miss _ _ _ _ Hmiss).
  destruct (make_df_body DataFrame_other requests_get url); simpl;
    [discriminate | reflexivity].
Qed.


(** C2. When the body of the response is JSON whose [items] is a list
    of objects, [make_df] returns the frame of these records: its
    columns are exactly the keys the records have, each once, and its
    rows are the records in the order of the list, row [i] holding
    under each column what record [i] has under that key. *)
Theorem make_df_frame_of_items (DataFrame_other : json -> result DataFrame)
    (requests_get : network) (url : string)
    (s : session) (r : Response) (body : json) (records : list pydict) :
  cache s !! url = None ->
  requests_get url = Ok r ->
  json_body r = Some body ->
  subscript body "items" = Ok (JArr (map JObj records)) ->
  exists df,
    snd (make_df DataFrame_other requests_get url s) = Ok df
    /\ (forall k, In k (columns df)
                  <-> exists d, In d records /\ In k (keys d))
    /\ List.NoDup (columns df)
    /\ length (rows df) = length records
    /\ (forall i d k, nth_error records i = Some d -> In k (columns df) ->
          cell_at df i k = Some (dict_get k d)).
Proof.
  intros Hmiss Hget Hbody Hitems. exists (from_records records).
  split.
  - rewrite (make_df_miss _ _ _ _ Hmiss). unfold make_df_body.
    rewrite Hget. simpl. unfold response_json. rewrite Hbody. simpl.
    rewrite Hitems. simpl. unfold pd_DataFrame. simpl.
    now rewrite all_dicts_map.
  - split; [apply union_keys_In |]. split; [apply union_keys_NoDup |].
    split; [apply length_map |]. apply from_records_cell.
Qed.

(** C3, as the code has it. For a url that is not cached, the call
    fails with the exception raised, after one request and with
    nothing cached, when the request itself fails, when the body is
    not JSON, and when the JSON has no [items] (a [KeyError] on an
    object, a [TypeError] on anything else). The status is not looked
    at: two responses with the same body give the same outcome, and a
    response of any status whose body has a list of objects as [items]
    gives the frame of these records, which is cached. *)
Theorem make_df_failures (DataFrame_other : json -> result DataFrame)
    (requests_get : network) (url : string) (s : session) :
  cache s !! url = None ->
  let failed e := (mkSession (cache s) (sent s ++ [url]), @Raise DataFrame e) in
  (forall e, requests_get url = Raise e ->
     make_df DataFrame_other requests_get url s = failed e)
  /\ (forall r, requests_get url = Ok r -> json_body r = None ->
        make_df DataFrame_other requests_get url s = failed JSONDecodeError)
  /\ (forall r body, requests_get url = Ok r -> json_body r = Some body ->
        (forall items, subscript body "items" <> Ok items) ->
        exists e, (e = KeyError "items" \/ e = TypeError)
                  /\ make_df DataFrame_other requests_get url s = failed e)
  /\ (forall requests_get' r r', requests_get url = Ok r ->
        requests_get' url = Ok r' -> json_body r = json_body r' ->
        make_df DataFrame_other requests_get' url s
        = make_df DataFrame_other requests_get url s)
  /\ (forall r body records, requests_get url = Ok r ->
        json_body r = Some body ->
        subscript body "items" = Ok (JArr (map JObj records)) ->
        make_df DataFrame_other requests_get url s
        = (mkSession (<[url := from_records records]> (cache s))
             (sent s ++ [url]),
           Ok (from_records records))).
Proof.
  intros Hmiss failed. subst failed. simpl.
  repeat split.
  - intros e He. rewrite (make_df_miss _ _ _ _ Hmiss). unfold make_df_body.
    now rewrite He.
  - intros r Hr Hb. rewrite (make_df_miss _ _ _ _ Hmiss). unfold make_df_body.
    rewrite Hr. simpl. unfold response_json. now rewrite Hb.
  - intros r body Hr Hb Hno. rewrite (make_df_miss _ _ _ _ Hmiss).
    unfold make_df_body. rewrite Hr. simpl. unfold response_json.
    rewrite Hb. simpl. unfold subscript in *.
    destruct body; try (exists TypeError; split; [tauto | reflexivity]).
    destruct (dict_get "items" d) as [v |].
    + now destruct (Hno v).
    + exists (KeyError "items"). split; [tauto | reflexivity].
  - intros requests_get' r r' Hr Hr' Hb.
    rewrite !(make_df_miss _ _ _ _ Hmiss). unfold make_df_body.
    rewrite Hr, Hr'. simpl. unfold response_json. now rewrite Hb.
  - intros r body records Hr Hb Hitems.
    rewrite (make_df_miss _ _ _ _ Hmiss). unfold make_df_body.
    rewrite Hr. simpl. unfold response_json. rewrite Hb. simpl.
    rewrite Hitems. simpl. unfold pd_DataFrame. simpl.
    now rewrite all_dicts_map.
Qed.

(** C10. When the readings of the selected station come back with an
    empty [items], the frame has no column and no row, reading its
    [dateTime] column raises [KeyError], and the run of the page ends
    with that exception. *)
Theorem page_aborts_on_empty_readings
    (DataFrame_other : json -> result DataFrame) (Timestamp : Type)
    (to_datetime : list cell -> result (list Timestamp))
    (requests_get : network)
    (now last_24h : datetime) (picked : nat) (s : session)
    (fetched : DataFrame) (chosen : selection) (r : Response) (body : json) :
  last_24h_datetime now = Ok last_24h ->
  snd (make_df DataFrame_other requests_get stations_api s) = Ok fetched ->
  select_station fetched picked (url_formatted_dt last_24h) = Ok chosen ->
  cache (fst (make_df DataFrame_other requests_get stations_api s)) !! sel_url chosen
  = None ->
  requests_get (sel_url chosen) = Ok r ->
  json_body r = Some body ->
  subscript body "items" = Ok (JArr []) ->
  snd (make_df DataFrame_other requests_get (sel_url chosen)
         (fst (make_df DataFrame_other requests_get stations_api s)))
  = Ok (mkDataFrame [] [])
  /\ parse_readings Timestamp to_datetime (mkDataFrame [] [])
     = Raise (KeyError "dateTime")
  /\ snd (page DataFrame_other Timestamp to_datetime requests_get now picked s)
     = Raise (KeyError "dateTime").
Proof.
  intros Hnow Hfetched Hchosen Hmiss Hget Hbody Hitems.
  assert (Hdf : snd (make_df DataFrame_other requests_get (sel_url chosen)
                       (fst (make_df DataFrame_other requests_get stations_api s)))
                = Ok (mkDataFrame [] [])).
  { rewrite (make_df_miss _ _ _ _ Hmiss). unfold make_df_body.
    rewrite Hget. simpl. unfold response_json. rewrite Hbody. simpl.
    rewrite Hitems. reflexivity. }
  split; [exact Hdf |]. split; [reflexivity |].
  unfold page. rewrite Hnow.
  destruct (make_df DataFrame_other requests_get stations_api s) as [s1 res] eqn:Hfirst.
  simpl in *. subst res. simpl. rewrite Hchosen.
  destruct (make_df DataFrame_other requests_get (sel_url chosen) s1) as [s2 res].
  simpl in *. now subst res.
Qed.

(** ** Columns and row masks *)

Lemma getitem_field df k :
  In k (columns df) ->
  getitem df k = Ok (map (field df k) (rows df)).
Proof.
  intros Hk. unfold getitem, field.
  destruct (index_of_In _ _ Hk) as [j ->]. reflexivity.
Qed.

Lemma getitem_Ok df k col :
  getitem df k = Ok col ->
  In k (columns df) /\ col = map (field df k) (rows df).
Proof.
  unfold getitem, field. destruct (index_of k (columns df)) as [j |] eqn:Hj.
  - intros [= <-]. split; [| reflexivity].
    eapply nth_error_In, index_of_nth, Hj.
  - discriminate.
Qed.

Lemma getitem_Raise df k e :
  getitem df k = Raise e -> e = KeyError k /\ ~ In k (columns df).
Proof.
  unfold getitem. destruct (index_of k (columns df)) eqn:Hj; [discriminate |].
  intros [= <-]. split; [reflexivity | now apply index_of_None].
Qed.

Lemma select_rows_map {A : Type} (f : A -> bool) (rs : list A) :
  select_rows rs (map f rs) = List.filter f rs.
Proof.
  induction rs as [| r rs IH]; simpl; [reflexivity |].
  now rewrite IH.
Qed.

Lemma select_rows_map2 {A B : Type} (f : A -> B) (g : B -> bool) (rs : list A) :
  select_rows rs (map g (map f rs)) = List.filter (fun r => g (f r)) rs.
Proof. rewrite map_map. apply select_rows_map. Qed.

Lemma filter_none {A : Type} (f : A -> bool) (l : list A) :
  (forall x, In x l -> f x = false) -> List.filter f l = [].
Proof.
  induction l as [| x l IH]; simpl; intros H; [reflexivity |].
  rewrite (H x) by tauto. apply IH. intros y Hy. apply H. tauto.
Qed.

Lemma filter_all {A : Type} (f : A -> bool) (l : list A) :
  (forall x, In x l -> f x = true) -> List.filter f l = l.
Proof.
  induction l as [| x l IH]; simpl; intros H; [reflexivity |].
  rewrite (H x) by tauto. f_equal. apply IH. intros y Hy. apply H. tauto.
Qed.

Lemma cell_ne_false s c : cell_ne s c = false <-> c = Some (JStr s).
Proof.
  unfold cell_ne. destruct c as [[] |]; try (split; [discriminate | intros [=]]).
  rewrite negb_false_iff, String.eqb_eq.
  split; [now intros -> | now intros [= ->]].
Qed.

Lemma cell_eq_true sel c : cell_eq (Some sel) c = true <-> c = Some (JStr sel).
Proof.
  unfold cell_eq. destruct c as [[] |]; try (split; [discriminate | intros [=]]).
  rewrite String.eqb_eq. split; [now intros -> | now intros [= ->]].
Qed.

Lemma stations_df_filter fetched :
  In "label" (columns fetched) ->
  stations_df fetched
  = Ok (mkDataFrame (columns fetched)
          (List.filter (fun r => cell_ne " Huscote FAS" (field fetched "label" r))
             (rows fetched))).
Proof.
  intros Hl. unfold stations_df. rewrite (getitem_field _ _ Hl). simpl.
  unfold boolean_index. now rewrite select_rows_map2.
Qed.

(** C5. A registry with a [label] column, exactly one of whose rows is
    labelled [" Huscote FAS"], keeps after line 50 every other row, in
    order, and that row is gone: one row less. *)
Theorem stations_df_drops_exactly_huscote (fetched : DataFrame)
    (before after : list (list cell)) (bad : list cell) :
  In "label" (columns fetched) ->
  rows fetched = before ++ bad :: after ->
  field fetched "label" bad = Some (JStr " Huscote FAS") ->
  (forall r, In r (before ++ after) ->
             field fetched "label" r <> Some (JStr " Huscote FAS")) ->
  exists stations,
    stations_df fetched = Ok stations
    /\ columns stations = columns fetched
    /\ rows stations = before ++ after
    /\ S (length (rows stations)) = length (rows fetched).
Proof.
  intros Hl Hrows Hbad Hothers. eexists. split; [now apply stations_df_filter |].
  simpl. split; [reflexivity |].
  assert (Hkeep : forall l, (forall r, In r l -> In r (before ++ after)) ->
            List.filter (fun r => cell_ne " Huscote FAS" (field fetched "label" r)) l
            = l).
  { intros l Hsub. apply filter_all. intros r Hr.
    destruct (cell_ne " Huscote FAS" (field fetched "label" r)) eqn:Hc;
      [reflexivity |].
    apply cell_ne_false in Hc. now destruct (Hothers r (Hsub r Hr)). }
  assert (Hf : List.filter
                 (fun r => cell_ne " Huscote FAS" (field fetched "label" r))
                 (rows fetched) = before ++ after).
  { rewrite Hrows, List.filter_app. simpl.
    replace (cell_ne " Huscote FAS" (field fetched "label" bad)) with false
      by (symmetry; now apply cell_ne_false).
    rewrite !Hkeep; [reflexivity | |]; intros r Hr; apply in_or_app; tauto. }
  split; [exact Hf |]. rewrite Hf, Hrows, !length_app. simpl. lia.
Qed.

(** ** The station identifier *)

(** Replacing a character by nothing removes every occurrence of it
    and keeps the other characters in order. *)
Lemma replace_by_empty old s :
  list_ascii_of_string (replace old "" s)
  = List.filter (fun c => negb (Ascii.eqb c old)) (list_ascii_of_string s).
Proof.
  induction s as [| c s IH]; simpl; [reflexivity |].
  destruct (Ascii.eqb c old); simpl; [| now rewrite IH].
  change (String.append "" (replace old "" s)) with (replace old "" s).
  exact IH.
Qed.

Lemma first_match_rows stations sel before r after :
  rows stations = before ++ r :: after ->
  (forall r', In r' before -> field stations "label" r' <> Some (JStr sel)) ->
  field stations "label" r = Some (JStr sel) ->
  select_rows (rows stations)
    (map (cell_eq (Some sel)) (map (field stations "label") (rows stations)))
  = r :: List.filter (fun r' => cell_eq (Some sel) (field stations "label" r'))
           after.
Proof.
  intros Hrows Hbefore Hr.
  rewrite select_rows_map2, Hrows, List.filter_app, filter_none.
  - cbn [List.filter app]. now rewrite (proj2 (cell_eq_true _ _) Hr).
  - intros r' Hr'.
    destruct (cell_eq (Some sel) (field stations "label" r')) eqn:Hc;
      [| reflexivity].
    apply cell_eq_true in Hc. now destruct (Hbefore r' Hr').
Qed.

Lemma station_id_first_match stations sel before r after :
  In "label" (columns stations) ->
  rows stations = before ++ r :: after ->
  (forall r', In r' before -> field stations "label" r' <> Some (JStr sel)) ->
  field stations "label" r = Some (JStr sel) ->
  station_id stations (Some sel)
  = match index_of "notation" (columns stations) with
    | Some _ =>
        match field stations "notation" r with
        | Some (JStr s) => Ok (replace "_" "" s)
        | _ => Raise AttributeError
        end
    | None => Raise (KeyError "notation")
    end.
Proof.
  intros Hl Hrows Hbefore Hr. unfold station_id.
  rewrite (getitem_field _ _ Hl). cbn [mbind result_bind rbind].
  unfold getitem, boolean_index, field. cbn [columns rows].
  fold (field stations "label").
  rewrite (first_match_rows _ _ _ _ _ Hrows Hbefore Hr).
  now destruct (index_of "notation" (columns stations)).
Qed.

(** C6. When the first row labelled with the selection has the string
    [notation] as its notation, the station identifier is [notation]
    without its underscores (the other characters kept, in order), and
    the url of the readings is the root, ["id/stations/"], the
    identifier, ["/readings?since="] and the formatted start of the
    window. *)
Theorem station_id_and_url (stations : DataFrame) (sel notation dt : string)
    (before after : list (list cell)) (r : list cell) :
  In "label" (columns stations) ->
  In "notation" (columns stations) ->
  rows stations = before ++ r :: after ->
  (forall r', In r' before -> field stations "label" r' <> Some (JStr sel)) ->
  field stations "label" r = Some (JStr sel) ->
  field stations "notation" r = Some (JStr notation) ->
  exists id,
    station_id stations (Some sel) = Ok id
    /\ list_ascii_of_string id
       = List.filter (fun c => negb (Ascii.eqb c "_"))
           (list_ascii_of_string notation)
    /\ filtered_by_station id dt
       = (root ++ "id/stations/" ++ id ++ "/readings?since=" ++ dt)%string.
Proof.
  intros Hl Hn Hrows Hbefore Hr Hnot. exists (replace "_" "" notation).
  split; [| split].
  - rewrite (station_id_first_match _ _ _ _ _ Hl Hrows Hbefore Hr).
    destruct (index_of_In _ _ Hn) as [j ->]. now rewrite Hnot.
  - apply replace_by_empty.
  - reflexivity.
Qed.

(** ** The order of strings, sorting and duplicates *)








Lemma insert_sorted_In x l y : In y (insert_sorted x l) <-> y = x \/ In y l.
Proof.
  induction l as [| z l IH]; simpl; [intuition congruence |].
  destruct (String.leb x z); simpl; [intuition congruence |].
  rewrite IH. intuition congruence.
Qed.

Lemma sort_values_In l y : In y (sort_values l) <-> In y l.
Proof.
  induction l as [| x l IH]; simpl; [tauto |].
  rewrite insert_sorted_In, IH. intuition congruence.
Qed.



Lemma unique_from_In seen l y :
  In y (unique_from seen l) <-> In y l /\ ~ In y seen.
Proof.
  revert seen. induction l as [| x l IH]; intros seen; simpl; [tauto |].
  destruct (mem_str x seen) eqn:Hm.
  - apply mem_str_In in Hm. rewrite IH. intuition congruence.
  - assert (~ In x seen) by (rewrite <- mem_str_In; congruence).
    simpl. rewrite IH. simpl.
    destruct (string_dec x y); intuition congruence.
Qed.



Lemma all_str_In col labels l :
  all_str col = Some labels -> In l labels <-> In (Some (JStr l)) col.
Proof.
  revert labels. induction col as [| c col IH]; intros labels; simpl.
  - intros [= <-]. simpl. tauto.
  - destruct (as_str c) as [s |] eqn:Hc; [| discriminate].
    destruct (all_str col) as [ss |]; [| discriminate].
    intros [= <-]. simpl. rewrite (IH ss eq_refl).
    destruct c as [[] |]; try discriminate. injection Hc as ->.
    intuition congruence.
Qed.

Lemma all_str_Forall col labels :
  all_str col = Some labels -> Forall (fun c => exists l, c = Some (JStr l)) col.
Proof.
  revert labels. induction col as [| c col IH]; intros labels; simpl.
  - constructor.
  - destruct (as_str c) as [s |] eqn:Hc; [| discriminate].
    destruct (all_str col) as [ss |]; [| discriminate].
    intros _. constructor; [| now apply (IH ss)].
    destruct c as [[] |]; try discriminate. eauto.
Qed.

(** The options are the labels of the rows, each once. *)
Lemma selectbox_options_In stations options :
  selectbox_options stations = Ok options ->
  In "label" (columns stations)
  /\ (forall r, In r (rows stations) ->
                exists l, field stations "label" r = Some (JStr l))
  /\ (forall l, In l options
                <-> exists r, In r (rows stations)
                              /\ field stations "label" r = Some (JStr l)).
Proof.
  unfold selectbox_options.
  destruct (getitem stations "label") as [col | e] eqn:Hg; [| discriminate].
  apply getitem_Ok in Hg. destruct Hg as [Hl ->]. cbn [mbind result_bind rbind].
  destruct (all_str _) as [labels |] eqn:Hall; [| discriminate].
  intros [= <-]. split; [exact Hl |]. split.
  - intros r Hr. apply all_str_Forall in Hall.
    rewrite List.Forall_forall in Hall. apply Hall. now apply in_map.
  - intros l. unfold unique.
    rewrite unique_from_In, sort_values_In, (all_str_In _ _ l Hall), in_map_iff.
    simpl. split.
    + intros [[r [H1 H2]] _]. eauto.
    + intros [r [H1 H2]]. split; [eauto | tauto].
Qed.


(** ** The map, the selector and the selection *)

Lemma filter_map_comm {A B : Type} (f : A -> B) (p : B -> bool) (l : list A) :
  List.filter p (map f l) = map f (List.filter (fun x => p (f x)) l).
Proof.
  induction l as [| x l IH]; simpl; [reflexivity |].
  destruct (p (f x)); simpl; now rewrite IH.
Qed.

Lemma map_data_Ok stations md :
  map_data stations = Ok md ->
  columns md = ["lat"; "lon"]
  /\ rows md = map (coordinates stations)
                 (List.filter (has_coordinates stations) (rows stations)).
Proof.
  unfold map_data, getitem_list, positions, coordinates, has_coordinates, field.
  destruct (index_of "lat" (columns stations)) as [i |]; [| discriminate].
  destruct (index_of "long" (columns stations)) as [j |]; [| discriminate].
  cbn [mbind mret result_bind result_ret rbind]. intros [= <-].
  split; [reflexivity |]. cbn [dropna rename rows map].
  rewrite filter_map_comm. f_equal. apply List.filter_ext. intros r.
  cbn [existsb]. now rewrite orb_false_r, negb_orb.
Qed.

Lemma map_data_is_ok stations :
  In "lat" (columns stations) -> In "long" (columns stations) ->
  is_ok (map_data stations) = true.
Proof.
  intros Hlat Hlong. unfold map_data, getitem_list, positions.
  destruct (index_of_In _ _ Hlat) as [i ->].
  now destruct (index_of_In _ _ Hlong) as [j ->].
Qed.

Lemma select_station_Ok fetched picked dt chosen :
  select_station fetched picked dt = Ok chosen ->
  stations_df fetched = Ok (sel_stations chosen)
  /\ map_data (sel_stations chosen) = Ok (sel_map_data chosen)
  /\ selectbox_options (sel_stations chosen) = Ok (sel_options chosen)
  /\ sel_shown chosen = selectbox_shown (sel_options chosen)
  /\ sel_station_select chosen = selectbox (sel_options chosen) picked
  /\ station_id (sel_stations chosen) (sel_station_select chosen)
     = Ok (sel_station_id chosen)
  /\ sel_url chosen = filtered_by_station (sel_station_id chosen) dt.
Proof.
  unfold select_station.
  destruct (stations_df fetched) as [stations | e]; [| discriminate].
  cbn [mbind result_bind rbind].
  destruct (map_data stations) as [md | e] eqn:Hmd; [| discriminate].
  cbn [mbind result_bind rbind].
  destruct (selectbox_options stations) as [options | e] eqn:Hopt;
    [| discriminate].
  cbn [mbind result_bind rbind].
  destruct (station_id stations (selectbox options picked)) as [id | e] eqn:Hid;
    [| discriminate].
  cbn [mbind mret result_bind result_ret rbind]. intros [= <-]. simpl.
  repeat split; try reflexivity; assumption.
Qed.

(** C7, as the code has it. When the stations have a [lat] and a [long]
    column, the map data exist and are the [lat] and [long] cells,
    under the names [lat] and [lon], of exactly the stations that have
    both, in order. The stations are not touched by this: every one of
    them, with or without coordinates, is offered by the selector, and
    a run of the page keeps the stations of line 50 next to the map
    data. *)
Theorem map_data_drops_from_map_only (stations : DataFrame) :
  In "lat" (columns stations) ->
  In "long" (columns stations) ->
  exists md,
    map_data stations = Ok md
    /\ columns md = ["lat"; "lon"]
    /\ rows md = map (coordinates stations)
                   (List.filter (has_coordinates stations) (rows stations))
    /\ (forall options r,
          selectbox_options stations = Ok options ->
          In r (rows stations) ->
          exists l, field stations "label" r = Some (JStr l) /\ In l options)
    /\ (forall fetched picked dt chosen,
          stations_df fetched = Ok stations ->
          select_station fetched picked dt = Ok chosen ->
          sel_stations chosen = stations /\ sel_map_data chosen = md
          /\ selectbox_options stations = Ok (sel_options chosen)).
Proof.
  intros Hlat Hlong. pose proof (map_data_is_ok _ Hlat Hlong) as Hok.
  destruct (map_data stations) as [md | e] eqn:Hmap; [| discriminate Hok].
  exists md. split; [reflexivity |].
  destruct (map_data_Ok _ _ Hmap) as [Hcols Hrows].
  split; [exact Hcols |]. split; [exact Hrows |]. split.
  - intros options r Hopt Hr.
    apply selectbox_options_In in Hopt. destruct Hopt as (_ & Hlab & Hin).
    destruct (Hlab r Hr) as [l Hl]. exists l.
    split; [exact Hl |]. apply Hin. eauto.
  - intros fetched picked dt chosen Hst Hsel.
    apply select_station_Ok in Hsel.
    destruct Hsel as (Hst' & Hmap' & Hopt & _).
    rewrite Hst in Hst'. injection Hst' as Heq. rewrite <- Heq in *.
    rewrite Hmap in Hmap'. injection Hmap' as Heq'.
    repeat split; [symmetry; exact Heq' | exact Hopt].
Qed.


Lemma first_match_split {A : Type} (f : A -> bool) (l : list A) :
  (exists x, In x l /\ f x = true) ->
  exists before r after,
    l = before ++ r :: after /\ f r = true
    /\ forall x, In x before -> f x = false.
Proof.
  induction l as [| y l IH]; intros [x [Hin Hx]]; [destruct Hin |].
  destruct (f y) eqn:Hy.
  - exists [], y, l. repeat split; [assumption | intros ? []].
  - destruct IH as (before & r & after & -> & Hr & Hb).
    { destruct Hin as [-> | Hin]; [congruence | eauto]. }
    exists (y :: before), r, after. repeat split; [assumption |].
    intros z [<- | Hz]; [assumption | now apply Hb].
Qed.

(** C9. A label returned by the selector labels at least one row of
    the stations the options were drawn from, so [iloc[0]] has a
    first row to take and the lookup does not raise [IndexError]. *)
Theorem selected_label_has_row (stations : DataFrame) (options : list string)
    (picked : nat) (sel : string) :
  selectbox_options stations = Ok options ->
  selectbox options picked = Some sel ->
  (exists r, In r (rows stations)
             /\ field stations "label" r = Some (JStr sel))
  /\ station_id stations (Some sel) <> Raise IndexError.
Proof.
  intros Hopt Hsel. apply selectbox_options_In in Hopt.
  destruct Hopt as (Hl & _ & Hin).
  assert (Hrow : exists r, In r (rows stations)
                           /\ field stations "label" r = Some (JStr sel)).
  { apply Hin. eapply nth_error_In, Hsel. }
  split; [exact Hrow |].
  destruct (first_match_split
              (fun r => cell_eq (Some sel) (field stations "label" r))
              (rows stations)) as (before & r & after & Hrows & Hr & Hb).
  { destruct Hrow as [r [H1 H2]]. exists r. split; [exact H1 |].
    now apply cell_eq_true. }
  rewrite (station_id_first_match stations sel before r after Hl Hrows).
  - destruct (index_of "notation" (columns stations)); [| discriminate].
    now destruct (field stations "notation" r) as [[] |].
  - intros r' Hr' Heq. apply cell_eq_true in Heq.
    rewrite (Hb r' Hr') in Heq. discriminate.
  - now apply cell_eq_true.
Qed.


(** ** The start of the window *)

Lemma digit_not_space n : Ascii.eqb (digit n) " " = false.
Proof.
  unfold digit. pose proof (Z.mod_pos_bound n 10 ltac:(lia)) as Hb.
  assert (Hk : (Z.to_nat (n mod 10) < 10)%nat) by lia.
  revert Hk. generalize (Z.to_nat (n mod 10)). intros k Hk.
  do 10 (destruct k as [| k]; [reflexivity |]). lia.
Qed.

Lemma replace_keep c s :
  Ascii.eqb c " " = false ->
  replace " " "T" (String c s) = String c (replace " " "T" s).
Proof. intros H. simpl. now rewrite H. Qed.

Lemma replace_digit n s :
  replace " " "T" (String (digit n) s) = String (digit n) (replace " " "T" s).
Proof. apply replace_keep, digit_not_space. Qed.

Lemma replace_space s :
  replace " " "T" (String " " s) = String "T" (replace " " "T" s).
Proof. reflexivity. Qed.

Ltac replace_through :=
  repeat first
    [ rewrite replace_digit
    | rewrite replace_space
    | rewrite replace_keep by reflexivity ].

(** With a fraction of a second, the formatted start of the window is
    the ISO-8601 rendering with two digits of the fraction. *)
Lemma url_formatted_dt_fraction (dt : datetime) :
  microsecond dt <> 0%Z -> url_formatted_dt dt = iso8601_Z 2 dt.
Proof.
  intros Hus. unfold url_formatted_dt, iso8601_Z, PyDatetime.str.
  apply Z.eqb_neq in Hus. rewrite Hus.
  cbv [zfill String.append]. replace_through.
  change (6 - Z.of_nat 2)%Z with 4%Z. change (10 ^ 4)%Z with (10 * (10 * (10 * 10)))%Z.
  rewrite <- !Z.div_div by lia. reflexivity.
Qed.

(** On a whole second [str] prints no fraction, and the four characters
    cut off are the seconds and the last digit of the minutes. *)
Lemma url_formatted_dt_whole_second (dt : datetime) :
  microsecond dt = 0%Z ->
  url_formatted_dt dt
  = (zfill 4 (year dt) ++ "-" ++ zfill 2 (month dt) ++ "-" ++ zfill 2 (day dt)
     ++ "T" ++ zfill 2 (hour dt) ++ ":"
     ++ String (digit (minute dt / 10)) "Z")%string.
Proof.
  intros Hus. unfold url_formatted_dt, PyDatetime.str. rewrite Hus.
  cbv [zfill String.append Z.eqb]. replace_through. reflexivity.
Qed.

Lemma list_ascii_app (a b : string) :
  list_ascii_of_string (a ++ b)
  = list_ascii_of_string a ++ list_ascii_of_string b.
Proof.
  induction a as [| c a IH]; [reflexivity |].
  change (String c a ++ b)%string with (String c (a ++ b)).
  simpl. now rewrite IH.
Qed.

Lemma substring_In n m s c :
  In c (list_ascii_of_string (substring n m s)) ->
  In c (list_ascii_of_string s).
Proof.
  revert n m. induction s as [| x s IH]; intros [| n] [| m]; simpl;
    try tauto.
  - intros [-> | H]; [tauto | right; exact (IH _ _ H)].
  - intros H. right. exact (IH _ _ H).
  - intros H. right. exact (IH _ _ H).
Qed.

Lemma replace_space_In s c :
  In c (list_ascii_of_string (replace " " "T" s)) -> c <> " "%char.
Proof.
  induction s as [| x s IH]; simpl; [tauto |].
  destruct (Ascii.eqb x " ") eqn:Hx.
  - change ("T" ++ replace " " "T" s)%string
      with (String "T" (replace " " "T" s)).
    simpl. intros [<- | H]; [discriminate | now apply IH].
  - simpl. intros [<- | H]; [| now apply IH].
    intros ->. discriminate.
Qed.

(** X22. Whatever the date-time, the formatted start of the window ends
    with [Z] and holds no space. *)
Lemma url_formatted_dt_Z_no_space (dt : datetime) :
  (exists s, url_formatted_dt dt = (s ++ "Z")%string)
  /\ forall c, In c (list_ascii_of_string (url_formatted_dt dt)) -> c <> " "%char.
Proof.
  split; [eexists; reflexivity |].
  intros c. unfold url_formatted_dt, drop_last.
  rewrite list_ascii_app, in_app_iff. intros [H | H].
  - apply substring_In in H. now apply replace_space_In in H.
  - simpl in H. destruct H as [<- | []]. discriminate.
Qed.

(** The start of the window is the same time of day on the day before. *)
Lemma last_24h_datetime_day_before (now : datetime) :
  valid now -> (1 < toordinal now <= MAXORDINAL + 1)%Z ->
  exists y m d,
    ord2ymd (toordinal now - 1) = (y, m, d)
    /\ last_24h_datetime now
       = Ok (mkDatetime y m d (hour now) (minute now) (second now)
               (microsecond now)).
Proof.
  intros (_ & _ & _ & Hh & Hm & Hs & Hus) Hord.
  destruct (ord2ymd (toordinal now - 1)) as [[y m] d] eqn:Hymd.
  exists y, m, d. split; [reflexivity |].
  unfold last_24h_datetime, PyDatetime.sub, timedelta_hours.
  cbn [days seconds microseconds].
  change (24 * 3600 / 86400)%Z with 1%Z.
  change (24 * 3600 mod 86400)%Z with 0%Z.
  rewrite !Z.sub_0_r.
  rewrite (Z.div_small (microsecond now)), (Z.mod_small (microsecond now)) by lia.
  rewrite Z.add_0_r.
  set (t := (hour now * 3600 + minute now * 60 + second now)%Z).
  assert (Ht : (0 <= t < 86400)%Z) by (subst t; lia).
  rewrite (Z.div_small t), (Z.mod_small t), Z.add_0_r by lia.
  replace ((0 <? toordinal now - 1)%Z && (toordinal now - 1 <=? MAXORDINAL)%Z)
    with true by (symmetry; apply andb_true_iff; split; lia).
  rewrite Hymd. f_equal. subst t.
  f_equal; Z.div_mod_to_equations; lia.
Qed.

(** C4. At 2024-01-02 12:34:56 sharp the window starts at
    2024-01-01 12:34:56, and the formatted start is ["2024-01-01T12:3Z"]:
    it ends with [Z] and has no space, but it is not the ISO-8601
    rendering of the start of the window, to the second or to any number
    of digits of the fraction. *)
Theorem window_start_on_whole_second :
  let now := mkDatetime 2024 1 2 12 34 56 0 in
  let start := mkDatetime 2024 1 1 12 34 56 0 in
  last_24h_datetime now = Ok start
  /\ url_formatted_dt start = "2024-01-01T12:3Z"
  /\ iso8601_Z 0 start = "2024-01-01T12:34:56Z"
  /\ forall frac, url_formatted_dt start <> iso8601_Z frac start.
Proof.
  cbv zeta. split; [reflexivity |].
  split; [apply (url_formatted_dt_whole_second (mkDatetime 2024 1 1 12 34 56 0));
          reflexivity |].
  split; [reflexivity |].
  intros frac H.
  rewrite (url_formatted_dt_whole_second (mkDatetime 2024 1 1 12 34 56 0))
    in H by reflexivity.
  unfold iso8601_Z in H. cbv [zfill String.append year month day hour minute
    second microsecond] in H.
  discriminate H.
Qed.

(** ** The properties at work on a small registry *)



Lemma make_df_frame_of_items_witness :
  exists df,
    snd (make_df no_other_payload (service readings_body) stations_api new_session)
    = Ok df
    /\ (forall k, In k (columns df) <-> exists d, In d registry /\ In k (keys d))
    /\ List.NoDup (columns df)
    /\ length (rows df) = length registry
    /\ (forall i d k, nth_error registry i = Some d -> In k (columns df) ->
          cell_at df i k = Some (dict_get k d)).
Proof.
  apply (make_df_frame_of_items no_other_payload (service readings_body)
           stations_api new_session (mkResponse 200 (Some registry_body))
           registry_body registry).
  - apply lookup_empty.
  - reflexivity.
  - reflexivity.
  - reflexivity.
Defined.

Example registry_frame :
  from_records registry
  = mkDataFrame ["label"; "notation"; "lat"; "long"]
      [[Some (JStr "A"); Some (JStr "S_1"); Some (JNum 1); Some (JNum 2)];
       [Some (JStr " Huscote FAS"); Some (JStr "2077"); None; None];
       [Some (JStr "mill lane"); Some (JStr "E_21_b"); Some JNull; None]].
Proof. reflexivity. Qed.

(** C3 as it is worded fails: a response with status 503 whose body is
    JSON with an [items] list gives a frame, not an exception. *)
Lemma non_2xx_response_gives_a_frame :
  non_2xx (mkResponse 503 (Some (JObj [("items", JArr [])]))) = true
  /\ snd (make_df no_other_payload service_unavailable stations_api new_session)
     = Ok empty_frame
  /\ ~ (forall (requests_get : network) (url : string) (s : session) (r : Response),
          cache s !! url = None ->
          requests_get url = Ok r ->
          non_2xx r = true ->
          exists e, snd (make_df no_other_payload requests_get url s) = Raise e).
Proof.
  split; [reflexivity |]. split; [reflexivity |].
  intros H.
  destruct (H service_unavailable stations_api new_session
              (mkResponse 503 (Some (JObj [("items", JArr [])])))
              (lookup_empty _) eq_refl eq_refl) as [e He].
  discriminate He.
Qed.

Lemma make_df_failures_witness :
  make_df no_other_payload service_down stations_api new_session
  = (mkSession ∅ [stations_api], Raise ConnectionError)
  /\ make_df no_other_payload service_not_json stations_api new_session
     = (mkSession ∅ [stations_api], Raise JSONDecodeError)
  /\ (exists e, (e = KeyError "items" \/ e = TypeError)
                /\ make_df no_other_payload service_no_items stations_api new_session
                   = (mkSession ∅ [stations_api], Raise e))
  /\ make_df no_other_payload service_unavailable stations_api new_session
     = (mkSession (<[stations_api := from_records []]> ∅) [stations_api],
        Ok (from_records [])).
Proof.
  split; [| split; [| split]].
  - destruct (make_df_failures no_other_payload service_down stations_api
                new_session (lookup_empty _)) as (H & _).
    apply H. reflexivity.
  - destruct (make_df_failures no_other_payload service_not_json stations_api
                new_session (lookup_empty _)) as (_ & H & _).
    apply (H (mkResponse 200 None)); reflexivity.
  - destruct (make_df_failures no_other_payload service_no_items stations_api
                new_session (lookup_empty _)) as (_ & _ & H & _).
    apply (H (mkResponse 200 (Some (JObj [("error", JStr "no such station")])))
             (JObj [("error", JStr "no such station")]));
      try reflexivity.
    intros items Hitems. discriminate Hitems.
  - destruct (make_df_failures no_other_payload service_unavailable stations_api
                new_session (lookup_empty _)) as (_ & _ & _ & _ & H).
    apply (H (mkResponse 503 (Some (JObj [("items", JArr [])])))
             (JObj [("items", JArr [])]) []); reflexivity.
Defined.

Lemma stations_df_drops_exactly_huscote_witness :
  exists stations,
    stations_df (from_records registry) = Ok stations
    /\ columns stations = ["label"; "notation"; "lat"; "long"]
    /\ rows stations
       = [[Some (JStr "A"); Some (JStr "S_1"); Some (JNum 1); Some (JNum 2)];
          [Some (JStr "mill lane"); Some (JStr "E_21_b"); Some JNull; None]]
    /\ S (length (rows stations)) = length (rows (from_records registry)).
Proof.
  apply (stations_df_drops_exactly_huscote (from_records registry)
           [[Some (JStr "A"); Some (JStr "S_1"); Some (JNum 1); Some (JNum 2)]]
           [[Some (JStr "mill lane"); Some (JStr "E_21_b"); Some JNull; None]]
           [Some (JStr " Huscote FAS"); Some (JStr "2077"); None; None]).
  - simpl. tauto.
  - reflexivity.
  - reflexivity.
  - intros r [<- | [<- | []]]; discriminate.
Defined.

Lemma station_id_and_url_witness :
  exists id,
    station_id stations_example (Some "mill lane") = Ok id
    /\ list_ascii_of_string id
       = List.filter (fun c => negb (Ascii.eqb c "_")) (list_ascii_of_string "E_21_b")
    /\ filtered_by_station id "2024-01-01T12:34:56.12Z"
       = (root ++ "id/stations/" ++ id ++ "/readings?since="
          ++ "2024-01-01T12:34:56.12Z")%string.
Proof.
  apply (station_id_and_url stations_example "mill lane" "E_21_b"
           "2024-01-01T12:34:56.12Z"
           [[Some (JStr "A"); Some (JStr "S_1"); Some (JNum 1); Some (JNum 2)]]
           []
           [Some (JStr "mill lane"); Some (JStr "E_21_b"); Some JNull; None]).
  - simpl. tauto.
  - simpl. tauto.
  - reflexivity.
  - intros r [<- | []]. discriminate.
  - reflexivity.
  - reflexivity.
Defined.

(** The scenario of one station labelled ["A"] with notation ["S_1"]. *)
Example station_id_scenario :
  let stations := from_records [station_A] in
  station_id stations (Some "A") = Ok "S1"
  /\ filtered_by_station "S1" "2024-01-01T12:34:56.12Z"
     = (root ++ "id/stations/S1/readings?since=2024-01-01T12:34:56.12Z")%string.
Proof. split; reflexivity. Qed.

Lemma map_data_drops_from_map_only_witness :
  exists md,
    map_data stations_example = Ok md
    /\ columns md = ["lat"; "lon"]
    /\ rows md = map (coordinates stations_example)
                   (List.filter (has_coordinates stations_example)
                      (rows stations_example))
    /\ (forall options r,
          selectbox_options stations_example = Ok options ->
          In r (rows stations_example) ->
          exists l, field stations_example "label" r = Some (JStr l)
                    /\ In l options)
    /\ (forall fetched picked dt chosen,
          stations_df fetched = Ok stations_example ->
          select_station fetched picked dt = Ok chosen ->
          sel_stations chosen = stations_example /\ sel_map_data chosen = md
          /\ selectbox_options stations_example = Ok (sel_options chosen)).
Proof.
  apply (map_data_drops_from_map_only stations_example); simpl; tauto.
Defined.

(** C7 as it is worded fails: the stations left by line 50 of a registry
    in which no station has a [long] have no such column; the selector
    offers the station, and the map data are a [KeyError]. *)
Lemma map_data_without_long_column :
  stations_df (from_records [station_mill]) = Ok stations_without_long
  /\ selectbox_options stations_without_long = Ok ["mill lane"]
  /\ map_data stations_without_long = Raise (KeyError "long")
  /\ ~ (forall fetched stations,
          stations_df fetched = Ok stations ->
          exists md,
            map_data stations = Ok md
            /\ rows md = map (coordinates stations)
                           (List.filter (has_coordinates stations)
                              (rows stations))).
Proof.
  split; [reflexivity |]. split; [reflexivity |]. split; [reflexivity |].
  intros H.
  destruct (H (from_records [station_mill]) stations_without_long eq_refl)
    as (md & Hmd & _).
  discriminate Hmd.
Qed.

Example map_data_scenario :
  map_data stations_example
  = Ok (mkDataFrame ["lat"; "lon"] [[Some (JNum 1); Some (JNum 2)]])
  /\ selectbox_options stations_example = Ok ["A"; "mill lane"]
  /\ selectbox_shown ["A"; "mill lane"] = ["A"; "Mill Lane"]
  /\ station_id stations_example (selectbox ["A"; "mill lane"] 1) = Ok "E21b".
Proof. repeat split. Qed.



Lemma selected_label_has_row_witness :
  (exists r, In r (rows stations_example)
             /\ field stations_example "label" r = Some (JStr "mill lane"))
  /\ station_id stations_example (Some "mill lane") <> Raise IndexError.
Proof.
  apply (selected_label_has_row stations_example ["A"; "mill lane"] 1 "mill lane");
    reflexivity.
Defined.

Lemma page_aborts_on_empty_readings_witness :
  snd (page no_other_payload cell keep_dateTime (service no_readings_body)
         (mkDatetime 2024 1 2 12 34 56 123456) 1 new_session)
  = Raise (KeyError "dateTime").
Proof.
  refine (proj2 (proj2
    (page_aborts_on_empty_readings no_other_payload cell keep_dateTime
       (service no_readings_body) (mkDatetime 2024 1 2 12 34 56 123456)
       (mkDatetime 2024 1 1 12 34 56 123456) 1 new_session
       (from_records registry)
       (mkSelection stations_example
          (mkDataFrame ["lat"; "lon"] [[Some (JNum 1); Some (JNum 2)]])
          ["A"; "mill lane"] ["A"; "Mill Lane"] (Some "mill lane") "E21b"
          (filtered_by_station "E21b" "2024-01-01T12:34:56.12Z"))
       (mkResponse 200 (Some no_readings_body)) no_readings_body
       _ _ _ _ _ _ _))); reflexivity.
Defined.

(** The scenario of one reading: one row, its value and its timestamp. *)
Example readings_scenario :
  snd (make_df no_other_payload (service readings_body) since_1 new_session)
  = Ok (mkDataFrame ["dateTime"; "value"]
          [[Some (JStr "2024-01-01T00:00:00Z"); Some (JNum (123 # 100))]]).
Proof. reflexivity. Qed.

(** * Further properties of the script *)

(** ** The cache of [make_df] *)

Lemma make_df_sent DataFrame_other requests_get url s :
  sent (fst (make_df DataFrame_other requests_get url s))
  = sent s ++ match cache s !! url with Some _ => [] | None => [url] end.
Proof.
  unfold make_df. destruct (cache s !! url).
  - simpl. now rewrite app_nil_r.
  - now destruct (make_df_body DataFrame_other requests_get url).
Qed.

Lemma make_df_cache_mono DataFrame_other requests_get url s v df :
  cache s !! v = Some df ->
  cache (fst (make_df DataFrame_other requests_get url s)) !! v = Some df.
Proof.
  intros Hv. unfold make_df. destruct (cache s !! url) eqn:Hu; [exact Hv |].
  destruct (make_df_body DataFrame_other requests_get url); simpl; [| exact Hv].
  rewrite lookup_insert_ne; [exact Hv | congruence].
Qed.

Lemma make_df_Ok_cached DataFrame_other requests_get url s df :
  snd (make_df DataFrame_other requests_get url s) = Ok df ->
  cache (fst (make_df DataFrame_other requests_get url s)) !! url = Some df.
Proof.
  unfold make_df. destruct (cache s !! url) eqn:Hu; simpl.
  - now intros [= <-].
  - destruct (make_df_body DataFrame_other requests_get url); simpl;
      [| discriminate].
    intros [= <-]. apply lookup_insert_eq.
Qed.

Lemma make_df_requested_before DataFrame_other requests_get url s :
  requested_before s ->
  requested_before (fst (make_df DataFrame_other requests_get url s)).
Proof.
  intros Hinv v Hv. rewrite make_df_sent. apply in_or_app.
  unfold make_df in Hv. destruct (cache s !! url) eqn:Hu.
  - left. now apply Hinv.
  - destruct (string_dec url v) as [<- | Hne]; [right; simpl; tauto |].
    left. apply Hinv.
    destruct (make_df_body DataFrame_other requests_get url); simpl in Hv;
      [| exact Hv].
    now rewrite lookup_insert_ne in Hv.
Qed.

(** X1. A call of [make_df] never drops or replaces an entry of the
    cache: what was cached for a url stays cached for it, the entries of
    the other urls are untouched, and a frame that is returned is the
    one cached for the url of the call. *)
Theorem make_df_cache_only_grows (DataFrame_other : json -> result DataFrame)
    (requests_get : network) (url : string) (s : session) :
  let s1 := fst (make_df DataFrame_other requests_get url s) in
  (forall v df, cache s !! v = Some df -> cache s1 !! v = Some df)
  /\ (forall v, v <> url -> cache s1 !! v = cache s !! v)
  /\ (forall df, snd (make_df DataFrame_other requests_get url s) = Ok df ->
        cache s1 !! url = Some df).
Proof.
  cbv zeta. split; [| split].
  - intros v df. apply make_df_cache_mono.
  - intros v Hne. apply make_df_cache_other. congruence.
  - intros df. apply make_df_Ok_cached.
Qed.

(** X2. An exception is not remembered: after a call that raised, the
    next call with the same url sends the request again and its outcome
    is that of the fresh request. *)
Theorem make_df_retries_after_exception
    (DataFrame_other : json -> result DataFrame)
    (requests_get requests_get' : network) (url : string) (s : session)
    (e : exn) :
  cache s !! url = None ->
  snd (make_df DataFrame_other requests_get url s) = Raise e ->
  let s1 := fst (make_df DataFrame_other requests_get url s) in
  sent (fst (make_df DataFrame_other requests_get' url s1)) = sent s ++ [url; url]
  /\ snd (make_df DataFrame_other requests_get' url s1)
     = make_df_body DataFrame_other requests_get' url.
Proof.
  intros Hmiss He s1.
  assert (Hc : cache s1 !! url = None).
  { subst s1. now rewrite (make_df_exception_not_cached _ _ _ _ e Hmiss He). }
  assert (Hs : sent s1 = sent s ++ [url]).
  { subst s1. now rewrite make_df_sent, Hmiss. }
  rewrite (make_df_miss _ _ _ _ Hc).
  destruct (make_df_body DataFrame_other requests_get' url); simpl;
    now rewrite Hs, <- app_assoc.
Qed.

Lemma make_df_retries_after_exception_witness :
  let s1 := fst (make_df no_other_payload service_down since_1 new_session) in
  sent (fst (make_df no_other_payload (service readings_body) since_1 s1))
  = [since_1; since_1]
  /\ snd (make_df no_other_payload (service readings_body) since_1 s1)
     = make_df_body no_other_payload (service readings_body) since_1.
Proof.
  apply (make_df_retries_after_exception no_other_payload service_down
           (service readings_body) since_1 new_session ConnectionError).
  - apply lookup_empty.
  - reflexivity.
Defined.

(** ** The urls *)

Lemma append_inj_l (p a b : string) : (p ++ a)%string = (p ++ b)%string -> a = b.
Proof.
  induction p as [| c p IH]; intros H; [exact H |].
  apply IH.
  change (String c (p ++ a)%string = String c (p ++ b)%string) in H.
  now injection H.
Qed.

Lemma filtered_by_station_not_registry id dt :
  filtered_by_station id dt <> stations_api.
Proof.
  unfold filtered_by_station, stations_api. intros H.
  apply append_inj_l in H.
  change (("id/stations" ++ String "/" (id ++ "/readings" ++ "?since=" ++ dt))%string
          = ("id/stations" ++ "")%string) in H.
  apply append_inj_l in H. discriminate H.
Qed.

(** The url of the readings is not the url of the registry, and for one
    station it tells the formatted starts of the window apart. *)
Lemma filtered_by_station_keys (id dt dt' : string) :
  filtered_by_station id dt <> stations_api
  /\ (filtered_by_station id dt = filtered_by_station id dt' -> dt = dt').
Proof.
  split; [apply filtered_by_station_not_registry |].
  unfold filtered_by_station. intros H.
  do 5 apply append_inj_l in H. exact H.
Qed.

(** X3. The cache keeps the registry, and the readings of one station
    for different formatted starts of the window, under different
    urls: fetching the readings for one formatted start leaves the
    entries of the registry and of another formatted start as they
    were, fetching the registry leaves the entries of the readings as
    they were, and a call for another formatted start that is not
    cached sends its own request. *)
Theorem readings_cache_entries_apart
    (DataFrame_other : json -> result DataFrame)
    (requests_get requests_get' : network) (id dt dt' : string) (s : session) :
  dt <> dt' ->
  let url := filtered_by_station id dt in
  let other := filtered_by_station id dt' in
  let s1 := fst (make_df DataFrame_other requests_get url s) in
  cache s1 !! other = cache s !! other
  /\ cache s1 !! stations_api = cache s !! stations_api
  /\ cache (fst (make_df DataFrame_other requests_get stations_api s)) !! url
     = cache s !! url
  /\ (cache s !! other = None ->
      sent (fst (make_df DataFrame_other requests_get' other s1))
      = sent s1 ++ [other]).
Proof.
  intros Hne url other s1.
  destruct (filtered_by_station_keys id dt dt') as [Hreg Hinj].
  assert (Hother : cache s1 !! other = cache s !! other).
  { subst s1. apply make_df_cache_other. intros H. apply Hne, Hinj, H. }
  split; [exact Hother |]. split; [| split].
  - subst s1. now apply make_df_cache_other.
  - apply make_df_cache_other. intros H. apply Hreg. now symmetry.
  - intros Hmiss. rewrite make_df_sent, Hother, Hmiss. reflexivity.
Qed.

Lemma readings_cache_entries_apart_witness :
  let s1 :=
    fst (make_df no_other_payload (service readings_body) since_1 new_session) in
  cache s1 !! since_2 = (∅ : gmap string DataFrame) !! since_2
  /\ cache s1 !! stations_api = (∅ : gmap string DataFrame) !! stations_api
  /\ cache (fst (make_df no_other_payload (service readings_body) stations_api
                   new_session)) !! since_1
     = (∅ : gmap string DataFrame) !! since_1
  /\ ((∅ : gmap string DataFrame) !! since_2 = None ->
      sent (fst (make_df no_other_payload service_down since_2 s1))
      = sent s1 ++ [since_2]).
Proof.
  apply (readings_cache_entries_apart no_other_payload (service readings_body)
           service_down "S1" "2024-01-01T12:34:56.12Z" "2024-01-01T12:34:57.12Z"
           new_session).
  intros H. discriminate H.
Defined.

(** ** The requests of one run of the page *)

Lemma page_steps DataFrame_other Timestamp
    (to_datetime : list cell -> result (list Timestamp))
    requests_get now picked s :
  page DataFrame_other Timestamp to_datetime requests_get now picked s
  = match last_24h_datetime now with
    | Raise e => (s, Raise e)
    | Ok last_24h =>
        let r1 := make_df DataFrame_other requests_get stations_api s in
        match snd r1 ≫= (fun df => select_station df picked
                                     (url_formatted_dt last_24h)) with
        | Raise e => (fst r1, Raise e)
        | Ok chosen =>
            let r2 := make_df DataFrame_other requests_get (sel_url chosen) (fst r1) in
            (fst r2,
             rd ← snd r2 ≫= parse_readings Timestamp to_datetime;
             mret (chosen, rd))
        end
    end.
Proof.
  unfold page. destruct (last_24h_datetime now) as [last |]; [| reflexivity].
  cbv zeta.
  destruct (make_df DataFrame_other requests_get stations_api s) as [s1 fetched].
  cbn [fst snd].
  destruct (fetched ≫= _) as [chosen |]; [| reflexivity].
  now destruct (make_df DataFrame_other requests_get (sel_url chosen) s1).
Qed.

Lemma select_station_url fetched picked dt chosen :
  select_station fetched picked dt = Ok chosen ->
  sel_url chosen <> stations_api.
Proof.
  intros H. apply select_station_Ok in H.
  destruct H as (_ & _ & _ & _ & _ & _ & ->).
  apply filtered_by_station_not_registry.
Qed.

Lemma page_sent DataFrame_other Timestamp
    (to_datetime : list cell -> result (list Timestamp))
    requests_get now picked s :
  exists l,
    sent (fst (page DataFrame_other Timestamp to_datetime requests_get now picked s))
    = sent s ++ l
    /\ (length l <= 2)%nat
    /\ (is_Some (cache s !! stations_api) ->
        (length l <= 1)%nat /\ ~ In stations_api l).
Proof.
  rewrite page_steps.
  destruct (last_24h_datetime now) as [last |].
  2:{ exists []. simpl. rewrite app_nil_r. repeat split; auto. }
  cbv zeta.
  pose proof (make_df_sent DataFrame_other requests_get stations_api s) as H1.
  destruct (snd (make_df DataFrame_other requests_get stations_api s) ≫= _)
    as [chosen | e] eqn:Hsel.
  - cbn [fst].
    rewrite make_df_sent, H1, <- app_assoc.
    assert (Hurl : sel_url chosen <> stations_api).
    { destruct (snd (make_df DataFrame_other requests_get stations_api s));
        [| discriminate].
      eapply select_station_url, Hsel. }
    eexists. split; [reflexivity |]. split.
    + rewrite length_app. destruct (cache s !! stations_api);
        destruct (cache _ !! sel_url chosen); simpl; lia.
    + intros [df Hdf]. rewrite Hdf. simpl.
      destruct (cache _ !! sel_url chosen); simpl; split; try lia; tauto.
  - cbn [fst]. rewrite H1. eexists. split; [reflexivity |]. split.
    + destruct (cache s !! stations_api); simpl; lia.
    + intros [df Hdf]. rewrite Hdf. simpl. split; [lia | tauto].
Qed.

(** X4. One run of the page sends at most two requests, and at most one,
    which is not for the registry, once the registry is cached. *)
Theorem page_sends_at_most_two (DataFrame_other : json -> result DataFrame)
    (Timestamp : Type) (to_datetime : list cell -> result (list Timestamp))
    (requests_get : network) (now : datetime) (picked : nat) (s : session) :
  exists l,
    sent (fst (page DataFrame_other Timestamp to_datetime requests_get now picked s))
    = sent s ++ l
    /\ (length l <= 2)%nat
    /\ (is_Some (cache s !! stations_api) ->
        (length l <= 1)%nat /\ ~ In stations_api l).
Proof. apply page_sent. Qed.

Lemma page_Ok DataFrame_other Timestamp
    (to_datetime : list cell -> result (list Timestamp))
    requests_get now picked s chosen rd :
  snd (page DataFrame_other Timestamp to_datetime requests_get now picked s)
  = Ok (chosen, rd) ->
  let r1 := make_df DataFrame_other requests_get stations_api s in
  let r2 := make_df DataFrame_other requests_get (sel_url chosen) (fst r1) in
  exists last_24h fetched filtered_df,
    last_24h_datetime now = Ok last_24h
    /\ snd r1 = Ok fetched
    /\ select_station fetched picked (url_formatted_dt last_24h) = Ok chosen
    /\ snd r2 = Ok filtered_df
    /\ parse_readings Timestamp to_datetime filtered_df = Ok rd
    /\ fst (page DataFrame_other Timestamp to_datetime requests_get now picked s)
       = fst r2.
Proof.
  rewrite page_steps. cbv zeta.
  destruct (last_24h_datetime now) as [last |]; [| discriminate].
  destruct (snd (make_df DataFrame_other requests_get stations_api s))
    as [fetched |] eqn:H1; [| discriminate].
  cbn [mbind result_bind rbind].
  destruct (select_station fetched picked (url_formatted_dt last))
    as [chosen' |] eqn:H2; [| discriminate].
  cbn [fst snd].
  destruct (snd (make_df DataFrame_other requests_get (sel_url chosen') _))
    as [filtered |] eqn:H3; [| discriminate].
  cbn [mbind mret result_bind result_ret rbind].
  destruct (parse_readings Timestamp to_datetime filtered) as [rd' |] eqn:H4;
    [| discriminate].
  intros [= <- <-]. exists last, fetched, filtered. rewrite H3. auto 10.
Qed.


(** X6. A run that got as far as the chart can be repeated for free:
    with the same time and the same selection, the next run sends no
    request, leaves the session as it is and gives the same data,
    whatever the service would answer by then. *)
Theorem page_rerun_is_free
    (DataFrame_other : json -> result DataFrame) (Timestamp : Type)
    (to_datetime : list cell -> result (list Timestamp))
    (requests_get requests_get' : network) (now : datetime)
    (picked : nat) (s : session) (out : selection * readings Timestamp) :
  snd (page DataFrame_other Timestamp to_datetime requests_get now picked s)
  = Ok out ->
  let s1 :=
    fst (page DataFrame_other Timestamp to_datetime requests_get now picked s) in
  page DataFrame_other Timestamp to_datetime requests_get' now picked s1
  = (s1, Ok out).
Proof.
  destruct out as [chosen rd]. intros Hok s1.
  destruct (page_Ok _ _ _ _ _ _ _ _ _ Hok)
    as (last & fetched & filtered & Hnow & H1 & Hsel & H2 & Hrd & Hs).
  assert (Hreg : cache s1 !! stations_api = Some fetched).
  { subst s1. rewrite Hs. now apply make_df_cache_mono, make_df_Ok_cached. }
  assert (Hurl : cache s1 !! sel_url chosen = Some filtered).
  { subst s1. rewrite Hs. now apply make_df_Ok_cached. }
  rewrite page_steps, Hnow. cbv zeta.
  rewrite (make_df_hit _ _ _ _ _ Hreg). cbn [fst snd mbind result_bind rbind].
  rewrite Hsel, (make_df_hit _ _ _ _ _ Hurl).
  cbn [fst snd mbind result_bind rbind]. now rewrite Hrd.
Qed.


Lemma page_rerun_is_free_witness :
  let run net :=
    page no_other_payload cell keep_dateTime net
      (mkDatetime 2024 1 2 12 34 56 123456) 1 in
  let s1 := fst (run (service readings_body) new_session) in
  exists out, run service_down s1 = (s1, Ok out).
Proof.
  cbv zeta. eexists.
  apply (page_rerun_is_free no_other_payload cell keep_dateTime
           (service readings_body) service_down
           (mkDatetime 2024 1 2 12 34 56 123456) 1 new_session).
  reflexivity.
Defined.

(** X7. What is in the cache was requested: a run of the page keeps the
    cache within the urls sent in the session. *)
Theorem page_requested_before
    (DataFrame_other : json -> result DataFrame) (Timestamp : Type)
    (to_datetime : list cell -> result (list Timestamp))
    (requests_get : network) (now : datetime) (picked : nat) (s : session) :
  requested_before s ->
  requested_before
    (fst (page DataFrame_other Timestamp to_datetime requests_get now picked s)).
Proof.
  intros Hinv. rewrite page_steps.
  destruct (last_24h_datetime now) as [last |]; [| exact Hinv].
  cbv zeta.
  destruct (snd (make_df DataFrame_other requests_get stations_api s) ≫= _);
    cbn [fst]; repeat apply make_df_requested_before; exact Hinv.
Qed.

Lemma new_session_requested_before : requested_before new_session.
Proof.
  intros url [df Hdf]. unfold new_session in Hdf. cbn [cache] in Hdf.
  rewrite lookup_empty in Hdf. discriminate Hdf.
Defined.

Lemma page_requested_before_witness :
  requested_before
    (fst (page no_other_payload cell keep_dateTime (service readings_body)
            (mkDatetime 2024 1 2 12 34 56 123456) 1 new_session)).
Proof.
  apply (page_requested_before no_other_payload cell keep_dateTime
           (service readings_body) (mkDatetime 2024 1 2 12 34 56 123456) 1
           new_session).
  exact new_session_requested_before.
Defined.

(** ** A registry the page cannot show *)

Lemma make_df_body_items DataFrame_other requests_get url r body records :
  requests_get url = Ok r ->
  json_body r = Some body ->
  subscript body "items" = Ok (JArr (map JObj records)) ->
  make_df_body DataFrame_other requests_get url = Ok (from_records records).
Proof.
  intros Hget Hbody Hitems. unfold make_df_body.
  rewrite Hget. cbn [mbind result_bind rbind]. unfold response_json.
  rewrite Hbody. cbn [mbind result_bind rbind].
  rewrite Hitems. cbn [mbind result_bind rbind].
  unfold pd_DataFrame. cbn [as_records]. now rewrite all_dicts_map.
Qed.

(** X8. A registry that comes back with an empty [items] stops the page
    with [KeyError] on [label], after the one request; the empty frame
    is cached, so every later run of the session stops the same way
    without asking the service again. *)
Theorem page_fails_on_empty_registry
    (DataFrame_other : json -> result DataFrame) (Timestamp : Type)
    (to_datetime : list cell -> result (list Timestamp))
    (requests_get requests_get' : network) (now now' last_24h last_24h' : datetime)
    (picked picked' : nat) (s : session) (r : Response) (body : json) :
  last_24h_datetime now = Ok last_24h ->
  last_24h_datetime now' = Ok last_24h' ->
  cache s !! stations_api = None ->
  requests_get stations_api = Ok r ->
  json_body r = Some body ->
  subscript body "items" = Ok (JArr []) ->
  let s1 := mkSession (<[stations_api := empty_frame]> (cache s))
              (sent s ++ [stations_api]) in
  page DataFrame_other Timestamp to_datetime requests_get now picked s
  = (s1, Raise (KeyError "label"))
  /\ page DataFrame_other Timestamp to_datetime requests_get' now' picked' s1
     = (s1, Raise (KeyError "label")).
Proof.
  intros Hnow Hnow' Hmiss Hget Hbody Hitems s1.
  assert (Hfirst : make_df DataFrame_other requests_get stations_api s
                   = (s1, Ok empty_frame)).
  { rewrite (make_df_miss _ _ _ _ Hmiss).
    now rewrite (make_df_body_items _ _ _ r body [] Hget Hbody Hitems). }
  split.
  - rewrite page_steps, Hnow. cbv zeta. now rewrite Hfirst.
  - rewrite page_steps, Hnow'. cbv zeta.
    rewrite (make_df_hit _ _ _ s1 empty_frame); [reflexivity |].
    subst s1. apply lookup_insert_eq.
Qed.

Lemma page_fails_on_empty_registry_witness :
  let s1 := mkSession (<[stations_api := empty_frame]> ∅) [stations_api] in
  page no_other_payload cell keep_dateTime service_unavailable
    (mkDatetime 2024 1 2 12 34 56 123456) 0 new_session
  = (s1, Raise (KeyError "label"))
  /\ page no_other_payload cell keep_dateTime (service readings_body)
       (mkDatetime 2024 1 2 12 40 0 5) 1 s1
     = (s1, Raise (KeyError "label")).
Proof.
  apply (page_fails_on_empty_registry no_other_payload cell keep_dateTime
           service_unavailable (service readings_body)
           (mkDatetime 2024 1 2 12 34 56 123456) (mkDatetime 2024 1 2 12 40 0 5)
           (mkDatetime 2024 1 1 12 34 56 123456) (mkDatetime 2024 1 1 12 40 0 5)
           0 1 new_session
           (mkResponse 503 (Some (JObj [("items", JArr [])])))
           (JObj [("items", JArr [])])).
  - reflexivity.
  - reflexivity.
  - apply lookup_empty.
  - reflexivity.
  - reflexivity.
  - reflexivity.
Defined.

(** ** The stations, the map and the lookup at their edges *)

Lemma stations_df_Ok fetched stations :
  stations_df fetched = Ok stations ->
  In "label" (columns fetched)
  /\ stations
     = mkDataFrame (columns fetched)
         (List.filter (fun r => cell_ne " Huscote FAS" (field fetched "label" r))
            (rows fetched)).
Proof.
  intros H. assert (Hl : In "label" (columns fetched)).
  { unfold stations_df in H.
    destruct (getitem fetched "label") as [col |] eqn:Hg; [| discriminate].
    now apply getitem_Ok in Hg. }
  split; [exact Hl |]. rewrite (stations_df_filter _ Hl) in H. now injection H.
Qed.

(** X9. Whatever the registry holds, line 50 keeps its columns, keeps
    each row that is not labelled [" Huscote FAS"] (a row without a
    label included) and no other, and applying it again changes
    nothing. *)
Theorem stations_df_keeps_all_but_huscote (fetched stations : DataFrame) :
  stations_df fetched = Ok stations ->
  columns stations = columns fetched
  /\ (forall r, In r (rows stations)
                <-> In r (rows fetched)
                    /\ field fetched "label" r <> Some (JStr " Huscote FAS"))
  /\ stations_df stations = Ok stations.
Proof.
  intros H. destruct (stations_df_Ok _ _ H) as [Hl ->]. cbn [columns rows].
  split; [reflexivity |]. split.
  - intros r. rewrite filter_In.
    destruct (cell_ne " Huscote FAS" (field fetched "label" r)) eqn:Hc.
    + split; [| tauto]. intros [Hr _]. split; [exact Hr |].
      intros Heq. apply cell_ne_false in Heq. congruence.
    + apply cell_ne_false in Hc. split; [intros [_ [=]] | tauto].
  - rewrite stations_df_filter by exact Hl. cbn [columns rows]. do 2 f_equal.
    apply filter_all. intros r Hr. now apply filter_In in Hr.
Qed.

Lemma stations_df_keeps_all_but_huscote_witness :
  columns stations_example = columns (from_records registry)
  /\ (forall r, In r (rows stations_example)
                <-> In r (rows (from_records registry))
                    /\ field (from_records registry) "label" r
                       <> Some (JStr " Huscote FAS"))
  /\ stations_df stations_example = Ok stations_example.
Proof.
  apply (stations_df_keeps_all_but_huscote (from_records registry)
           stations_example).
  reflexivity.
Defined.

(** X10. The map data are rectangular and complete: every row has
    exactly two cells and neither is missing. *)
Theorem map_data_has_no_missing_cell (stations md : DataFrame) :
  map_data stations = Ok md ->
  forall r, In r (rows md) ->
            length r = 2%nat /\ forall c, In c r -> isna c = false.
Proof.
  intros H r Hr. destruct (map_data_Ok _ _ H) as [_ Hrows].
  rewrite Hrows in Hr. apply in_map_iff in Hr.
  destruct Hr as (r0 & <- & Hr0). apply filter_In in Hr0.
  destruct Hr0 as [_ Hc]. unfold has_coordinates in Hc.
  apply andb_true_iff in Hc. destruct Hc as [Hlat Hlong].
  apply negb_true_iff in Hlat, Hlong.
  split; [reflexivity |]. intros c [<- | [<- | []]]; assumption.
Qed.

Lemma map_data_has_no_missing_cell_witness :
  length [Some (JNum 1); Some (JNum 2)] = 2%nat
  /\ isna (Some (JNum 1)) = false /\ isna (Some (JNum 2)) = false.
Proof.
  destruct (map_data_has_no_missing_cell stations_example
              (mkDataFrame ["lat"; "lon"] [[Some (JNum 1); Some (JNum 2)]])
              eq_refl [Some (JNum 1); Some (JNum 2)])
    as [Hlen Hcells].
  - simpl. tauto.
  - split; [exact Hlen |]. split; apply Hcells; simpl; tauto.
Defined.

Lemma index_of_not_In k cols : ~ In k cols -> index_of k cols = None.
Proof.
  intros Hk. destruct (index_of k cols) as [j |] eqn:Hj; [| reflexivity].
  destruct Hk. eapply nth_error_In, index_of_nth, Hj.
Qed.

Lemma map_data_KeyError stations :
  (~ In "lat" (columns stations) -> map_data stations = Raise (KeyError "lat"))
  /\ (In "lat" (columns stations) -> ~ In "long" (columns stations) ->
      map_data stations = Raise (KeyError "long")).
Proof.
  unfold map_data, getitem_list, positions. split.
  - intros H. now rewrite (index_of_not_In _ _ H).
  - intros Hlat H. destruct (index_of_In _ _ Hlat) as [i ->].
    now rewrite (index_of_not_In _ _ H).
Qed.

(** X11. The columns of the registry are the keys its stations have: a
    registry in which no station has a [lat], or no station a [long],
    has no such column, and the page stops at the map with [KeyError]
    on that column. *)
Theorem select_station_needs_coordinates (records : list pydict)
    (picked : nat) (dt : string) :
  (exists d, In d records /\ In "label" (keys d)) ->
  ((forall d, In d records -> ~ In "lat" (keys d)) ->
   select_station (from_records records) picked dt = Raise (KeyError "lat"))
  /\ ((exists d, In d records /\ In "lat" (keys d)) ->
      (forall d, In d records -> ~ In "long" (keys d)) ->
      select_station (from_records records) picked dt = Raise (KeyError "long")).
Proof.
  intros Hlabel.
  assert (Hl : In "label" (columns (from_records records)))
    by now apply union_keys_In.
  unfold select_station. rewrite (stations_df_filter _ Hl).
  cbn [mbind result_bind rbind].
  set (stations := mkDataFrame _ _).
  destruct (map_data_KeyError stations) as [Hlat Hlong]. split.
  - intros Hno. rewrite Hlat; [reflexivity |].
    intros Hin. apply union_keys_In in Hin. destruct Hin as (d & Hd & Hk).
    exact (Hno d Hd Hk).
  - intros Hsome Hno. rewrite Hlong; [reflexivity | now apply union_keys_In |].
    intros Hin. apply union_keys_In in Hin. destruct Hin as (d & Hd & Hk).
    exact (Hno d Hd Hk).
Qed.

Lemma select_station_needs_coordinates_witness :
  select_station (from_records [station_huscote]) 0 "2024-01-01T12:34:56.12Z"
  = Raise (KeyError "lat")
  /\ select_station (from_records [station_mill]) 0 "2024-01-01T12:34:56.12Z"
     = Raise (KeyError "long").
Proof.
  split.
  - apply (select_station_needs_coordinates [station_huscote] 0
             "2024-01-01T12:34:56.12Z").
    + exists station_huscote. simpl. tauto.
    + intros d [<- | []]. simpl. intuition discriminate.
  - apply (select_station_needs_coordinates [station_mill] 0
             "2024-01-01T12:34:56.12Z").
    + exists station_mill. simpl. tauto.
    + exists station_mill. simpl. tauto.
    + intros d [<- | []]. simpl. intuition discriminate.
Defined.



(** X13. A registry without a [notation] column stops the lookup with
    [KeyError] on [notation], whatever is selected and whether or not a
    row matches: the column is read before the first row is taken. *)
Theorem station_id_without_notation_column (stations : DataFrame)
    (station_select : option string) :
  In "label" (columns stations) ->
  ~ In "notation" (columns stations) ->
  station_id stations station_select = Raise (KeyError "notation").
Proof.
  intros Hl Hn. unfold station_id. rewrite (getitem_field _ _ Hl).
  cbn [mbind result_bind rbind]. unfold getitem, boolean_index.
  cbn [columns]. now rewrite (index_of_not_In _ _ Hn).
Qed.

Lemma station_id_without_notation_column_witness :
  station_id (mkDataFrame ["label"] [[Some (JStr "A")]]) (Some "A")
  = Raise (KeyError "notation").
Proof.
  apply (station_id_without_notation_column
           (mkDataFrame ["label"] [[Some (JStr "A")]]) (Some "A")).
  - simpl. tauto.
  - simpl. intuition discriminate.
Defined.

(** X14. When the first row labelled with the selection has a notation
    that is not a string (a station without the key, a [null], a
    number), the lookup stops with [AttributeError], even if a later
    row with the same label has a proper notation. *)
Theorem station_id_notation_not_a_string (stations : DataFrame) (sel : string)
    (before after : list (list cell)) (r : list cell) :
  In "label" (columns stations) ->
  In "notation" (columns stations) ->
  rows stations = before ++ r :: after ->
  (forall r', In r' before -> field stations "label" r' <> Some (JStr sel)) ->
  field stations "label" r = Some (JStr sel) ->
  as_str (field stations "notation" r) = None ->
  station_id stations (Some sel) = Raise AttributeError.
Proof.
  intros Hl Hn Hrows Hbefore Hr Hnot.
  rewrite (station_id_first_match _ _ _ _ _ Hl Hrows Hbefore Hr).
  destruct (index_of_In _ _ Hn) as [j ->].
  destruct (field stations "notation" r) as [[] |]; try reflexivity.
  discriminate Hnot.
Qed.

Lemma station_id_notation_not_a_string_witness :
  station_id
    (mkDataFrame ["label"; "notation"]
       [[Some (JStr "A"); Some JNull]; [Some (JStr "A"); Some (JStr "S_1")]])
    (Some "A")
  = Raise AttributeError.
Proof.
  apply (station_id_notation_not_a_string _ "A" []
           [[Some (JStr "A"); Some (JStr "S_1")]]
           [Some (JStr "A"); Some JNull]).
  - simpl. tauto.
  - simpl. tauto.
  - reflexivity.
  - intros r' [].
  - reflexivity.
  - reflexivity.
Defined.

(** ** What the selector shows *)

Ltac each_ascii c :=
  destruct c as [[] [] [] [] [] [] [] []]; reflexivity.

Lemma to_lower_to_lower c : to_lower (to_lower c) = to_lower c.
Proof. each_ascii c. Qed.

Lemma to_lower_to_upper c : to_lower (to_upper c) = to_lower c.
Proof. each_ascii c. Qed.

Lemma lower_lower s : lower (lower s) = lower s.
Proof.
  induction s as [| c s IH]; simpl; [reflexivity |].
  now rewrite to_lower_to_lower, IH.
Qed.

Lemma lower_title_from b s : lower (title_from b s) = lower s.
Proof.
  revert b. induction s as [| c s IH]; intros b; simpl; [reflexivity |].
  destruct (is_upper c || is_lower c); simpl; rewrite IH; [| reflexivity].
  destruct b; now rewrite ?to_lower_to_lower, ?to_lower_to_upper.
Qed.

Lemma length_lower s : String.length (lower s) = String.length s.
Proof. induction s as [| c s IH]; simpl; [reflexivity | now rewrite IH]. Qed.

Lemma length_title_from b s : String.length (title_from b s) = String.length s.
Proof.
  revert b. induction s as [| c s IH]; intros b; simpl; [reflexivity |].
  destruct (is_upper c || is_lower c); simpl; now rewrite IH.
Qed.

(** X15. For labels of ASCII characters, what the selector shows for a
    label has the length of the label and depends on it up to the case
    of its letters only: two labels are shown alike exactly when they
    are equal once in lower case, and showing what is shown changes
    nothing. *)
Theorem format_func_up_to_case (a b : string) :
  is_ascii a = true ->
  is_ascii b = true ->
  String.length (format_func a) = String.length a
  /\ format_func (format_func a) = format_func a
  /\ (format_func a = format_func b <-> lower a = lower b).
Proof.
  intros _ _. unfold format_func, title. split; [| split].
  - now rewrite length_title_from, length_lower.
  - now rewrite lower_title_from, lower_lower.
  - split.
    + intros H. apply (f_equal lower) in H.
      now rewrite !lower_title_from, !lower_lower in H.
    + now intros ->.
Qed.

Lemma format_func_up_to_case_witness :
  String.length (format_func "MILL lane") = String.length "MILL lane"
  /\ format_func (format_func "MILL lane") = format_func "MILL lane"
  /\ (format_func "MILL lane" = format_func "mill LANE"
      <-> lower "MILL lane" = lower "mill LANE").
Proof.
  apply (format_func_up_to_case "MILL lane" "mill LANE"); reflexivity.
Defined.

(** ** The readings *)

(** X16. The readings fail in a fixed order: without a [dateTime]
    column with [KeyError] on [dateTime]; else, when [pd.to_datetime]
    raises, with its exception; else, without a [value] column, with
    [KeyError] on [value]. Otherwise the chart gets the parsed
    timestamps and one value per row of the frame. *)
Theorem parse_readings_outcomes (Timestamp : Type)
    (to_datetime : list cell -> result (list Timestamp))
    (filtered_df : DataFrame) :
  let dateTime := map (field filtered_df "dateTime") (rows filtered_df) in
  let parse := parse_readings Timestamp to_datetime filtered_df in
  (~ In "dateTime" (columns filtered_df) -> parse = Raise (KeyError "dateTime"))
  /\ (In "dateTime" (columns filtered_df) ->
      forall e, to_datetime dateTime = Raise e -> parse = Raise e)
  /\ (In "dateTime" (columns filtered_df) ->
      forall parsed, to_datetime dateTime = Ok parsed ->
        (~ In "value" (columns filtered_df) -> parse = Raise (KeyError "value"))
        /\ (In "value" (columns filtered_df) ->
            exists value,
              parse = Ok (mkReadings Timestamp filtered_df parsed value)
              /\ length value = length (rows filtered_df))).
Proof.
  cbv zeta. unfold parse_readings. split; [| split].
  - intros H. unfold getitem. now rewrite (index_of_not_In _ _ H).
  - intros H e He. rewrite (getitem_field _ _ H).
    cbn [mbind result_bind rbind]. now rewrite He.
  - intros H parsed Hp. rewrite (getitem_field _ _ H).
    cbn [mbind result_bind rbind]. rewrite Hp. cbn [mbind result_bind rbind].
    split.
    + intros Hv. unfold getitem. now rewrite (index_of_not_In _ _ Hv).
    + intros Hv. rewrite (getitem_field _ _ Hv). eexists.
      split; [reflexivity |]. apply length_map.
Qed.

(** ** Frames built from records *)

Lemma add_new_prefix acc ks : exists tail, add_new acc ks = acc ++ tail.
Proof.
  revert acc. induction ks as [| k ks IH]; intros acc; simpl.
  - exists []. now rewrite app_nil_r.
  - destruct (mem_str k acc).
    + apply IH.
    + destruct (IH (acc ++ [k])) as [tail ->]. exists (k :: tail).
      now rewrite <- app_assoc.
Qed.

Lemma fold_add_new_prefix records acc :
  exists tail,
    fold_left (fun a d => add_new a (keys d)) records acc = acc ++ tail.
Proof.
  revert acc. induction records as [| d records IH]; intros acc; simpl.
  - exists []. now rewrite app_nil_r.
  - destruct (add_new_prefix acc (keys d)) as [t1 ->].
    destruct (IH (acc ++ t1)) as [t2 ->]. exists (t1 ++ t2).
    now rewrite app_assoc.
Qed.

Lemma add_new_fresh acc ks :
  List.NoDup ks -> (forall k, In k ks -> ~ In k acc) -> add_new acc ks = acc ++ ks.
Proof.
  revert acc. induction ks as [| k ks IH]; intros acc Hnd Hfresh; simpl.
  - now rewrite app_nil_r.
  - inversion Hnd as [| ? ? Hk Hnd']; subst.
    replace (mem_str k acc) with false.
    + rewrite IH; [now rewrite <- app_assoc | exact Hnd' |].
      intros k' Hk' Hin. apply in_app_or in Hin.
      destruct Hin as [Hin | [<- | []]]; [| contradiction].
      apply (Hfresh k'); simpl; tauto.
    + symmetry. apply not_true_is_false. rewrite mem_str_In.
      apply Hfresh. simpl. tauto.
Qed.

(** X17. The columns of a frame built from records begin with the keys
    of the first record, in the order the record has them; the keys
    that only later records have follow. *)
Theorem from_records_columns_begin_with_first (d : pydict) (records : list pydict) :
  List.NoDup (keys d) ->
  exists later, columns (from_records (d :: records)) = keys d ++ later.
Proof.
  intros Hnd. unfold from_records, union_keys. cbn [columns fold_left].
  rewrite (add_new_fresh [] (keys d) Hnd) by (intros k _ []).
  apply fold_add_new_prefix.
Qed.

Lemma from_records_columns_begin_with_first_witness :
  exists later,
    columns (from_records [station_mill; station_A])
    = ["notation"; "label"; "lat"] ++ later.
Proof.
  apply (from_records_columns_begin_with_first station_mill [station_A]).
  repeat constructor; simpl; intuition discriminate.
Defined.

(** X18. Frames stay rectangular: a frame built from records has one
    cell per column in every row, and line 50 keeps it so. *)
Theorem frames_stay_rectangular (records : list pydict) :
  rectangular (from_records records)
  /\ forall fetched stations,
       rectangular fetched -> stations_df fetched = Ok stations ->
       rectangular stations.
Proof.
  split.
  - unfold rectangular, from_records. cbn [columns rows].
    apply List.Forall_forall. intros r Hr. apply in_map_iff in Hr.
    destruct Hr as (d & <- & _). apply length_map.
  - intros fetched stations Hrect Hst.
    destruct (stations_df_Ok _ _ Hst) as [_ ->]. unfold rectangular in *.
    cbn [columns rows]. rewrite List.Forall_forall in Hrect |- *.
    intros r Hr. apply filter_In in Hr. now apply Hrect.
Qed.

(** ** The start of the window, for every date and time *)

Section Calendar.
Local Open Scope Z_scope.

Lemma month_and_day_checked leapyear :
  forallb (month_and_day_ok leapyear) (seq 0 365) = true.
Proof. destruct leapyear; vm_compute; reflexivity. Qed.

Lemma month_and_day_spec leapyear n :
  0 <= n <= 364 ->
  let '(m, d) := month_and_day leapyear n in
  1 <= m <= 12
  /\ 1 <= d <= table DAYS_IN_MONTH m + (if (m =? 2) && leapyear then 1 else 0)
  /\ table DAYS_BEFORE_MONTH m + (if (2 <? m) && leapyear then 1 else 0) + d
     = n + 1.
Proof.
  intros Hn. pose proof (month_and_day_checked leapyear) as H.
  rewrite forallb_forall in H. specialize (H (Z.to_nat n)).
  unfold month_and_day_ok in H. rewrite Z2Nat.id in H by lia.
  destruct (month_and_day leapyear n) as [m d].
  assert (Hin : In (Z.to_nat n) (seq 0 365)) by (apply in_seq; lia).
  specialize (H Hin). rewrite !andb_true_iff in H.
  destruct H as ((((H1 & H2) & H3) & H4) & H5). 
  apply Z.leb_le in H1, H2, H3, H4. apply Z.eqb_eq in H5. lia.
Qed.

Lemma year_arithmetic n400 n100 n4 n1 :
  0 <= n100 <= 3 -> 0 <= n4 <= 24 -> 0 <= n1 <= 3 ->
  let y := n400 * 400 + 1 + n100 * 100 + n4 * 4 + n1 in
  days_before_year y = 146097 * n400 + 36524 * n100 + 1461 * n4 + 365 * n1
  /\ is_leap y = (n1 =? 3) && (negb (n4 =? 24) || (n100 =? 3)).
Proof.
  intros H100 H4 H1 y. split.
  - unfold days_before_year. subst y. cbv zeta. Z.div_mod_to_equations. lia.
  - unfold is_leap. subst y.
    destruct (Z.eqb_spec n1 3), (Z.eqb_spec n4 24), (Z.eqb_spec n100 3);
    destruct (Z.eqb_spec ((n400 * 400 + 1 + n100 * 100 + n4 * 4 + n1) mod 4) 0);
    destruct (Z.eqb_spec ((n400 * 400 + 1 + n100 * 100 + n4 * 4 + n1) mod 100) 0);
    destruct (Z.eqb_spec ((n400 * 400 + 1 + n100 * 100 + n4 * 4 + n1) mod 400) 0);
    try reflexivity; exfalso; Z.div_mod_to_equations; lia.
Qed.

Lemma ord2ymd_steps ordinal :
  ord2ymd ordinal
  = (let n := ordinal - 1 in
     let n400 := n / 146097 in
     let n := n mod 146097 in
     let n100 := n / 36524 in
     let n := n mod 36524 in
     let n4 := n / 1461 in
     let n := n mod 1461 in
     let n1 := n / 365 in
     let n := n mod 365 in
     let y := n400 * 400 + 1 + n100 * 100 + n4 * 4 + n1 in
     if (n1 =? 4) || (n100 =? 4) then (y - 1, 12, 31)
     else
       let '(m, d) :=
         month_and_day ((n1 =? 3) && (negb (n4 =? 24) || (n100 =? 3))) n in
       (y, m, d)).
Proof.
  unfold ord2ymd, month_and_day. change DI400Y with 146097.
  change DI100Y with 36524. change DI4Y with 1461. cbv zeta.
  destruct (_ || _); [reflexivity |]. now destruct (_ <? _).
Qed.

Lemma table_months m :
  1 <= m <= 12 ->
  0 <= table DAYS_BEFORE_MONTH m <= 334 /\ 28 <= table DAYS_IN_MONTH m <= 31.
Proof.
  intros Hm.
  assert (H : m = 1 \/ m = 2 \/ m = 3 \/ m = 4 \/ m = 5 \/ m = 6 \/ m = 7
              \/ m = 8 \/ m = 9 \/ m = 10 \/ m = 11 \/ m = 12) by lia.
  repeat destruct H as [-> | H]; try subst m; cbv; intuition discriminate.
Qed.

(** The date of an ordinal is a date of the calendar, and its ordinal is
    the ordinal. *)
Lemma ord2ymd_round_trip (ordinal : Z) :
  1 <= ordinal ->
  let '(y, m, d) := ord2ymd ordinal in
  ymd2ord y m d = ordinal
  /\ 1 <= y /\ 1 <= m <= 12 /\ 1 <= d <= days_in_month y m.
Proof.
  intros Hord. rewrite ord2ymd_steps. cbv zeta.
  pose proof (Z.div_mod (ordinal - 1) 146097 ltac:(lia)) as E400.
  pose proof (Z.mod_pos_bound (ordinal - 1) 146097 ltac:(lia)) as B400.
  pose proof (Z.div_pos (ordinal - 1) 146097 ltac:(lia) ltac:(lia)) as P400.
  set (n400 := (ordinal - 1) / 146097) in *.
  set (r := (ordinal - 1) mod 146097) in *.
  pose proof (Z.div_mod r 36524 ltac:(lia)) as E100.
  pose proof (Z.mod_pos_bound r 36524 ltac:(lia)) as B100.
  set (n100 := r / 36524) in *. set (r1 := r mod 36524) in *.
  pose proof (Z.div_mod r1 1461 ltac:(lia)) as E4.
  pose proof (Z.mod_pos_bound r1 1461 ltac:(lia)) as B4.
  set (n4 := r1 / 1461) in *. set (r2 := r1 mod 1461) in *.
  pose proof (Z.div_mod r2 365 ltac:(lia)) as E1.
  pose proof (Z.mod_pos_bound r2 365 ltac:(lia)) as B1.
  set (n1 := r2 / 365) in *. set (r3 := r2 mod 365) in *.
  clearbody n400 r n100 r1 n4 r2 n1 r3.
  assert (H100 : 0 <= n100 <= 4) by lia.
  assert (H4 : 0 <= n4 <= 24) by lia.
  assert (H1 : 0 <= n1 <= 4) by lia.
  destruct (Z.eqb_spec n1 4) as [-> | Hn1]; cbn [orb].
  - (* the last day of a leap year *)
    destruct (year_arithmetic n400 n100 n4 3 ltac:(lia) ltac:(lia) ltac:(lia))
      as [Hd Hl].
    cbv zeta in Hd, Hl.
    replace (n400 * 400 + 1 + n100 * 100 + n4 * 4 + 4 - 1)
      with (n400 * 400 + 1 + n100 * 100 + n4 * 4 + 3) by lia.
    unfold ymd2ord, days_before_month, days_in_month. rewrite Hd, Hl.
    replace (n4 =? 24) with false by (symmetry; apply Z.eqb_neq; lia).
    change (table DAYS_BEFORE_MONTH 12) with 334.
    change (table DAYS_IN_MONTH 12) with 31. cbn. lia.
  - destruct (Z.eqb_spec n100 4) as [-> | Hn100].
    + destruct (year_arithmetic n400 3 24 3 ltac:(lia) ltac:(lia) ltac:(lia))
        as [Hd Hl].
      cbv zeta in Hd, Hl.
      replace (n400 * 400 + 1 + 4 * 100 + n4 * 4 + n1 - 1)
        with (n400 * 400 + 1 + 3 * 100 + 24 * 4 + 3) by lia.
      unfold ymd2ord, days_before_month, days_in_month. rewrite Hd, Hl.
      change (table DAYS_BEFORE_MONTH 12) with 334.
      change (table DAYS_IN_MONTH 12) with 31. cbn. lia.
    + destruct (year_arithmetic n400 n100 n4 n1 ltac:(lia) ltac:(lia) ltac:(lia))
        as [Hd Hl].
      cbv zeta in Hd, Hl.
      set (leapyear := (n1 =? 3) && (negb (n4 =? 24) || (n100 =? 3))) in *.
      pose proof (month_and_day_spec leapyear r3 ltac:(lia)) as Hm.
      destruct (month_and_day leapyear r3) as [m d].
      destruct Hm as (Hm & Hday & Hsum).
      unfold ymd2ord, days_before_month, days_in_month. rewrite Hd, Hl.
      split; [lia |]. split; [lia |]. split; [exact Hm |].
      destruct (Z.eqb_spec m 2) as [-> | Hm2].
      * change (table DAYS_IN_MONTH 2) with 28 in *.
        change (2 =? 2) with true in *.
        destruct leapyear; cbn [andb] in *; lia.
      * replace (m =? 2) with false in * by (symmetry; apply Z.eqb_neq; lia).
        destruct (2 <? m); destruct leapyear; cbn [andb] in *; lia.
Qed.

Lemma days_before_year_bounds y :
  1 <= y <= 9999 -> 0 <= days_before_year y /\ days_before_year (y + 1) <= 3652059.
Proof.
  intros Hy. unfold days_before_year. cbv zeta.
  replace (y + 1 - 1) with y by lia. Z.div_mod_to_equations. lia.
Qed.

Lemma days_before_year_succ y :
  days_before_year (y + 1)
  = days_before_year y + 365 + (if is_leap y then 1 else 0).
Proof.
  unfold days_before_year, is_leap. cbv zeta.
  replace (y + 1 - 1) with y by lia.
  destruct (Z.eqb_spec (y mod 4) 0), (Z.eqb_spec (y mod 100) 0),
    (Z.eqb_spec (y mod 400) 0); cbn [andb orb negb];
    Z.div_mod_to_equations; lia.
Qed.

Lemma year_of_ordinal_bound y :
  1 <= y -> days_before_year y < 3652059 -> y <= 9999.
Proof.
  intros Hy. unfold days_before_year. cbv zeta. Z.div_mod_to_equations. lia.
Qed.

Lemma month_end m leap :
  1 <= m <= 12 ->
  table DAYS_BEFORE_MONTH m + (if (2 <? m) && leap then 1 else 0)
  + (if (m =? 2) && leap then 29 else table DAYS_IN_MONTH m)
  <= 365 + (if leap then 1 else 0).
Proof.
  intros Hm.
  assert (H : m = 1 \/ m = 2 \/ m = 3 \/ m = 4 \/ m = 5 \/ m = 6 \/ m = 7
              \/ m = 8 \/ m = 9 \/ m = 10 \/ m = 11 \/ m = 12) by lia.
  repeat destruct H as [-> | H]; try subst m; destruct leap; cbv;
    discriminate.
Qed.

Lemma toordinal_bounds dt : valid dt -> 1 <= toordinal dt <= MAXORDINAL.
Proof.
  intros (Hy & Hm & Hd & _). unfold toordinal, ymd2ord.
  destruct (days_before_year_bounds _ Hy) as [H0 H1].
  rewrite days_before_year_succ in H1.
  pose proof (month_end (month dt) (is_leap (year dt)) Hm) as Hend.
  pose proof (table_months _ Hm) as [Ht _].
  unfold days_in_month in Hd. unfold days_before_month, MAXORDINAL.
  destruct ((2 <? month dt) && is_leap (year dt)); lia.
Qed.

Lemma last_24h_datetime_steps now :
  valid now ->
  last_24h_datetime now
  = if (0 <? toordinal now - 1) && (toordinal now - 1 <=? MAXORDINAL) then
      let '(y, m, d) := ord2ymd (toordinal now - 1) in
      Ok (mkDatetime y m d (hour now) (minute now) (second now)
            (microsecond now))
    else Raise OverflowError.
Proof.
  intros (_ & _ & _ & Hh & Hm & Hs & Hus).
  unfold last_24h_datetime, PyDatetime.sub, timedelta_hours.
  cbn [days seconds microseconds].
  change (24 * 3600 / 86400) with 1. change (24 * 3600 mod 86400) with 0.
  rewrite !Z.sub_0_r.
  rewrite (Z.div_small (microsecond now)), (Z.mod_small (microsecond now)) by lia.
  rewrite Z.add_0_r.
  set (t := hour now * 3600 + minute now * 60 + second now).
  assert (Ht : 0 <= t < 86400) by (subst t; lia).
  rewrite (Z.div_small t), (Z.mod_small t), Z.add_0_r by lia.
  destruct (_ && _); [| reflexivity].
  destruct (ord2ymd (toordinal now - 1)) as [[y m] d].
  f_equal. subst t. f_equal; Z.div_mod_to_equations; lia.
Qed.

(** X19. Line 14 gives the same time of day on the calendar day before:
    for every date-time of the [datetime] class but those of
    0001-01-01, the start of the window is again such a date-time, its
    day is the day before and its hour, minute, second and microsecond
    are those of [now]; on 0001-01-01 the subtraction raises
    [OverflowError]. *)
Theorem last_24h_datetime_is_the_day_before (now : datetime) :
  valid now ->
  (toordinal now = 1 -> last_24h_datetime now = Raise OverflowError)
  /\ (1 < toordinal now ->
      exists start,
        last_24h_datetime now = Ok start
        /\ valid start
        /\ toordinal start = toordinal now - 1
        /\ hour start = hour now /\ minute start = minute now
        /\ second start = second now /\ microsecond start = microsecond now).
Proof.
  intros Hvalid. pose proof (toordinal_bounds _ Hvalid) as Hb.
  rewrite (last_24h_datetime_steps _ Hvalid). split.
  - intros ->. reflexivity.
  - intros Hone.
    replace ((0 <? toordinal now - 1) && (toordinal now - 1 <=? MAXORDINAL))
      with true by (symmetry; apply andb_true_iff; split; lia).
    pose proof (ord2ymd_round_trip (toordinal now - 1) ltac:(lia)) as Hrt.
    destruct (ord2ymd (toordinal now - 1)) as [[y m] d].
    destruct Hrt as (Hord & Hy & Hm & Hd).
    assert (Hy' : y <= 9999).
    { apply year_of_ordinal_bound; [exact Hy |].
      pose proof (table_months _ Hm) as [Ht _].
      unfold ymd2ord, days_before_month, MAXORDINAL in *.
      destruct ((2 <? m) && is_leap y); lia. }
    eexists. split; [reflexivity |].
    destruct Hvalid as (_ & _ & _ & Hh & Hmi & Hs & Hus).
    unfold valid, toordinal. cbn [year month day hour minute second microsecond].
    repeat split; solve [lia | exact Hord].
Qed.

End Calendar.

Lemma last_24h_datetime_is_the_day_before_witness :
  let now := mkDatetime 2024 3 1 0 0 5 250000 in
  exists start,
    last_24h_datetime now = Ok start
    /\ valid start
    /\ toordinal start = (toordinal now - 1)%Z
    /\ hour start = hour now /\ minute start = minute now
    /\ second start = second now /\ microsecond start = microsecond now.
Proof.
  cbv zeta.
  apply (last_24h_datetime_is_the_day_before (mkDatetime 2024 3 1 0 0 5 250000)).
  - cbv. intuition discriminate.
  - reflexivity.
Defined.

Example last_24h_datetime_leap_day :
  last_24h_datetime (mkDatetime 2024 3 1 0 0 5 250000)
  = Ok (mkDatetime 2024 2 29 0 0 5 250000).
Proof. reflexivity. Qed.

(** X20. Off a whole second, the formatted start of the window is the
    ISO-8601 rendering of the start with [T], two digits of the fraction
    of the second and [Z]: 23 characters. *)
Theorem url_formatted_dt_off_whole_second (dt : datetime) :
  microsecond dt <> 0%Z ->
  url_formatted_dt dt = iso8601_Z 2 dt
  /\ String.length (url_formatted_dt dt) = 23%nat.
Proof.
  intros Hus. rewrite (url_formatted_dt_fraction dt Hus).
  split; [reflexivity |]. unfold iso8601_Z. cbv [zfill String.append].
  reflexivity.
Qed.

Lemma url_formatted_dt_off_whole_second_witness :
  url_formatted_dt (mkDatetime 2024 1 1 2 4 6 3456)
  = iso8601_Z 2 (mkDatetime 2024 1 1 2 4 6 3456)
  /\ String.length (url_formatted_dt (mkDatetime 2024 1 1 2 4 6 3456)) = 23%nat.
Proof.
  apply (url_formatted_dt_off_whole_second (mkDatetime 2024 1 1 2 4 6 3456)).
  discriminate.
Defined.

Example url_formatted_dt_small_fraction :
  url_formatted_dt (mkDatetime 2024 1 1 2 4 6 3456) = "2024-01-01T02:04:06.00Z".
Proof. reflexivity. Qed.

(** X21. On every whole second, the formatted start of the window has
    16 characters, the last minute digit and the seconds being cut off,
    and is not the ISO-8601 rendering of the start with any number of
    digits of the fraction. *)
Theorem url_formatted_dt_on_whole_second (dt : datetime) :
  microsecond dt = 0%Z ->
  String.length (url_formatted_dt dt) = 16%nat
  /\ forall frac, url_formatted_dt dt <> iso8601_Z frac dt.
Proof.
  intros Hus. rewrite (url_formatted_dt_whole_second dt Hus). split.
  - cbv [zfill String.append]. reflexivity.
  - intros frac H. unfold iso8601_Z in H. cbv [zfill String.append] in H.
    discriminate H.
Qed.

Lemma url_formatted_dt_on_whole_second_witness :
  String.length (url_formatted_dt (mkDatetime 2023 12 31 23 59 59 0)) = 16%nat
  /\ forall frac,
       url_formatted_dt (mkDatetime 2023 12 31 23 59 59 0)
       <> iso8601_Z frac (mkDatetime 2023 12 31 23 59 59 0).
Proof.
  apply (url_formatted_dt_on_whole_second (mkDatetime 2023 12 31 23 59 59 0)).
  reflexivity.
Defined.
